(** * Curl2Py: the analyze/generate controller and its two service calls

    A shallow embedding of the two variants of the application:

    - the basic variant ([Basic]): [Basic.Service] is
      [services/geminiService.ts], whose analysis returns a list of field
      names; the rest of [Basic] is the controller that offers an "add
      custom field" form;
    - the extended variant ([Extended]): [Extended.Service] is the service
      whose analysis also returns the volatile inputs of the request; the
      rest of [Extended] is its controller.

    The remote model is the environment: what it replies is a parameter of
    the service functions.  Everything computed locally (the blank-input
    guard, prompt and schema construction, the status transitions, the
    selection set, the error message reduction, the success view) is
    translated from the TypeScript source, at the types the source
    declares. *)

From Stdlib Require Import List NArith Bool String Ascii Lia Wf_nat.
Import ListNotations.

Local Open Scope N_scope.

(** ** JavaScript values used by the program *)

Module JS.

(** A JavaScript string is a sequence of UTF-16 code units. *)
Definition jsstring := list N.

(** The code units of an ASCII literal of the source. *)
Definition lit (s : string) : jsstring :=
  map N_of_ascii (list_ascii_of_string s).

Fixpoint jsstring_eqb (a b : jsstring) : bool :=
  match a, b with
  | [], [] => true
  | x :: a', y :: b' => (x =? y) && jsstring_eqb a' b'
  | _, _ => false
  end.

Definition jsstring_eq_dec : forall a b : jsstring, {a = b} + {a <> b} :=
  list_eq_dec N.eq_dec.

(** [!s] on a string: only the empty string is falsy. *)
Definition falsy (s : jsstring) : bool :=
  match s with [] => true | _ :: _ => false end.

(** ECMAScript WhiteSpace and LineTerminator code points, the ones
    [String.prototype.trim] strips. *)
Definition is_ws (c : N) : bool :=
  (c =? 9) || (c =? 10) || (c =? 11) || (c =? 12) || (c =? 13) ||
  (c =? 32) || (c =? 160) || (c =? 5760) ||
  ((8192 <=? c) && (c <=? 8202)) ||
  (c =? 8232) || (c =? 8233) || (c =? 8239) || (c =? 8287) ||
  (c =? 12288) || (c =? 65279).

Fixpoint trimStart (s : jsstring) : jsstring :=
  match s with
  | [] => []
  | c :: r => if is_ws c then trimStart r else s
  end.

Definition trimEnd (s : jsstring) : jsstring := rev (trimStart (rev s)).

(** [s.trim()] *)
Definition trim (s : jsstring) : jsstring := trimEnd (trimStart s).

(** [parts.join(sep)] *)
Fixpoint join (sep : jsstring) (parts : list jsstring) : jsstring :=
  match parts with
  | [] => []
  | [p] => p
  | p :: rest => p ++ sep ++ join sep rest
  end.

(** [arr.slice(0, n)] *)
Definition slice0 {A : Type} (n : nat) (arr : list A) : list A := firstn n arr.

(** *** [Set<string>]

    A JavaScript [Set] iterates in insertion order, and the controller
    hands [Array.from(selectedFields)] to the prompt builder, so the set is
    kept as the list of its members in insertion order. *)
Definition JsSet := list jsstring.

Definition Set_empty : JsSet := [].

Definition Set_has (s : JsSet) (x : jsstring) : bool :=
  existsb (jsstring_eqb x) s.

Definition Set_add (s : JsSet) (x : jsstring) : JsSet :=
  if Set_has s x then s else s ++ [x].

Definition Set_delete (s : JsSet) (x : jsstring) : JsSet :=
  filter (fun y => negb (jsstring_eqb x y)) s.

(** [new Set(iterable)] *)
Definition Set_of (xs : list jsstring) : JsSet := fold_left Set_add xs Set_empty.

(** [Array.from(set)] *)
Definition Array_from (s : JsSet) : list jsstring := s.

(** *** Thrown values and settled promises *)

(** What a [catch (err: any)] clause of the controllers looks at: the
    [message] property, which may be missing. *)
Record JsError := { message : option jsstring }.

(** [err.message || fallback]: a missing or empty message is falsy. *)
Definition message_or (err : JsError) (fallback : jsstring) : jsstring :=
  match message err with
  | Some m => if falsy m then fallback else m
  | None => fallback
  end.

Inductive outcome (A : Type) : Type :=
| Resolved (a : A)
| Rejected (err : JsError).

Arguments Resolved {A} a.
Arguments Rejected {A} err.

(** *** [JSON.parse]

    The views call [JSON.parse] on a string and only depend on whether it
    returns or throws a [SyntaxError].  The recogniser below follows the JSON
    grammar of ECMA-404, which is the one [JSON.parse] accepts: a single
    value surrounded by optional white space. *)

Definition json_ws (c : N) : bool :=
  (c =? 32) || (c =? 9) || (c =? 10) || (c =? 13).

Fixpoint skip_ws (s : jsstring) : jsstring :=
  match s with
  | [] => []
  | c :: r => if json_ws c then skip_ws r else s
  end.

Definition is_digit (c : N) : bool := (48 <=? c) && (c <=? 57).

Definition is_hex (c : N) : bool :=
  is_digit c || ((65 <=? c) && (c <=? 70)) || ((97 <=? c) && (c <=? 102)).

(** The characters that may follow a backslash, [u] apart: the double
    quote, the backslash, the slash and the letters b, f, n, r, t. *)
Definition is_simple_escape (c : N) : bool :=
  (c =? 34) || (c =? 92) || (c =? 47) || (c =? 98) || (c =? 102) ||
  (c =? 110) || (c =? 114) || (c =? 116).

(** The rest of a string literal, after its opening quote; returns what
    follows the closing quote. *)
Fixpoint scan_string (s : jsstring) : option jsstring :=
  match s with
  | [] => None
  | c :: r =>
      if c =? 34 then Some r
      else if c =? 92 then
        match r with
        | [] => None
        | e :: r1 =>
            if is_simple_escape e then scan_string r1
            else if e =? 117 then
              match r1 with
              | h1 :: h2 :: h3 :: h4 :: r2 =>
                  if is_hex h1 && is_hex h2 && is_hex h3 && is_hex h4
                  then scan_string r2 else None
              | _ => None
              end
            else None
        end
      else if c <? 32 then None
      else scan_string r
  end.

Fixpoint skip_digits (s : jsstring) : jsstring :=
  match s with
  | [] => []
  | c :: r => if is_digit c then skip_digits r else s
  end.

(** One digit or more. *)
Definition scan_digits1 (s : jsstring) : option jsstring :=
  match s with
  | [] => None
  | c :: r => if is_digit c then Some (skip_digits r) else None
  end.

(** [0], or a non-zero digit followed by digits. *)
Definition scan_int (s : jsstring) : option jsstring :=
  match s with
  | [] => None
  | c :: r =>
      if c =? 48 then Some r
      else if is_digit c then Some (skip_digits r)
      else None
  end.

Definition scan_frac (s : jsstring) : option jsstring :=
  match s with
  | [] => Some []
  | c :: r => if c =? 46 then scan_digits1 r else Some s
  end.

Definition scan_exp (s : jsstring) : option jsstring :=
  match s with
  | [] => Some []
  | c :: r =>
      if (c =? 101) || (c =? 69) then
        match r with
        | [] => None
        | sgn :: r1 =>
            if (sgn =? 43) || (sgn =? 45) then scan_digits1 r1
            else scan_digits1 r
        end
      else Some s
  end.

Definition scan_number (s : jsstring) : option jsstring :=
  let unsigned :=
    match s with
    | [] => []
    | c :: r => if c =? 45 then r else s
    end in
  match scan_int unsigned with
  | None => None
  | Some s1 =>
      match scan_frac s1 with
      | None => None
      | Some s2 => scan_exp s2
      end
  end.

Fixpoint strip_prefix (p s : jsstring) : option jsstring :=
  match p, s with
  | [], _ => Some s
  | _ :: _, [] => None
  | x :: p', y :: s' => if x =? y then strip_prefix p' s' else None
  end.

(** A value at the head of [s] (white space already skipped); returns what
    follows it.  [scan_elements] reads the elements of an array up to its
    closing bracket, [scan_members] the members of an object up to its
    closing brace.  Every call consumes input or is followed by one that
    does, so twice the length of the text is fuel enough. *)
Fixpoint scan_value (fuel : nat) (s : jsstring) : option jsstring :=
  match fuel with
  | O => None
  | S fuel' =>
      match s with
      | [] => None
      | c :: r =>
          if c =? 123 then
            match skip_ws r with
            | [] => None
            | c1 :: r1 =>
                if c1 =? 125 then Some r1 else scan_members fuel' (c1 :: r1)
            end
          else if c =? 91 then
            match skip_ws r with
            | [] => None
            | c1 :: r1 =>
                if c1 =? 93 then Some r1 else scan_elements fuel' (c1 :: r1)
            end
          else if c =? 34 then scan_string r
          else if c =? 116 then strip_prefix (lit "true") s
          else if c =? 102 then strip_prefix (lit "false") s
          else if c =? 110 then strip_prefix (lit "null") s
          else scan_number s
      end
  end

with scan_elements (fuel : nat) (s : jsstring) : option jsstring :=
  match fuel with
  | O => None
  | S fuel' =>
      match scan_value fuel' s with
      | None => None
      | Some r =>
          match skip_ws r with
          | [] => None
          | c :: r1 =>
              if c =? 44 then scan_elements fuel' (skip_ws r1)
              else if c =? 93 then Some r1
              else None
          end
      end
  end

with scan_members (fuel : nat) (s : jsstring) : option jsstring :=
  match fuel with
  | O => None
  | S fuel' =>
      match s with
      | [] => None
      | q :: r =>
          if q =? 34 then
            match scan_string r with
            | None => None
            | Some r1 =>
                match skip_ws r1 with
                | [] => None
                | c :: r2 =>
                    if c =? 58 then
                      match scan_value fuel' (skip_ws r2) with
                      | None => None
                      | Some r3 =>
                          match skip_ws r3 with
                          | [] => None
                          | d :: r4 =>
                              if d =? 44 then scan_members fuel' (skip_ws r4)
                              else if d =? 125 then Some r4
                              else None
                          end
                      end
                    else None
                end
            end
          else None
      end
  end.

(** Whether [text] is one value between optional white space, for the
    recogniser run with [fuel]. *)
Definition accepts_with (fuel : nat) (text : jsstring) : bool :=
  match scan_value fuel (skip_ws text) with
  | None => false
  | Some r => falsy (skip_ws r)
  end.

(** Whether [JSON.parse(text)] returns ([true]) or throws ([false]). *)
Definition JSON_parse_returns (text : jsstring) : bool :=
  accepts_with (2 * List.length text + 2) text.

End JS.


Import JS.

(** The double quote, which the literals of this file cannot hold. *)
Definition dq : jsstring := [34].

(** The text of a template literal: its lines, joined by line feeds. *)
Definition text (lines : list jsstring) : jsstring := join [10] lines.

(** ** [types.ts] *)

Record ConversionResponse := {
  pythonCode : jsstring;
  explanation : jsstring;
  mockResponse : jsstring
}.

Inductive AppStatus :=
| IDLE
| ANALYZING
| AWAITING_SELECTION
| GENERATING
| SUCCESS
| ERROR.

Definition AppStatus_eqb (a b : AppStatus) : bool :=
  match a, b with
  | IDLE, IDLE | ANALYZING, ANALYZING
  | AWAITING_SELECTION, AWAITING_SELECTION | GENERATING, GENERATING
  | SUCCESS, SUCCESS | ERROR, ERROR => true
  | _, _ => false
  end.

(** ** The request and the reply of [ai.models.generateContent] *)

Module GenAI.

(** The members of the SDK's [Type] enumeration that the services use. *)
Inductive SchemaType := OBJECT | ARRAY | STRING.

#[local] Unset Elimination Schemes.

(** A schema object literal; a key the literal leaves out is [None]. *)
Inductive Schema : Type := mkSchema {
  type : SchemaType;
  description : option jsstring;
  enum : option (list jsstring);
  items : option Schema;
  properties : option (list (jsstring * Schema));
  required : option (list jsstring)
}.
#[local] Set Elimination Schemes.

Record GenerationConfig := {
  responseMimeType : jsstring;
  responseSchema : Schema
}.

Record GenerateContentParameters := {
  model : jsstring;
  contents : jsstring;
  config : GenerationConfig
}.

(** What [await ai.models.generateContent(...)] followed by
    [JSON.parse(response.text)] comes to, [R] being the shape the service
    reads the parsed value at.  The remote model decides which. *)
Inductive Reply (R : Type) : Type :=
| CallRejects (err : JsError)
| TextUnparsable (err : JsError)
| TextParses (result : R).

Arguments CallRejects {R} err.
Arguments TextUnparsable {R} err.
Arguments TextParses {R} result.

(** The remote model, as the services see it. *)
Definition Remote (R : Type) : Type := GenerateContentParameters -> Reply R.

(** [{ type: t }] *)
Definition plain (t : SchemaType) : Schema :=
  mkSchema t None None None None None.

End GenAI.

Import GenAI.

(** What one run of an [async] handler does: the state once its synchronous
    part has run (the call, if any, is then in flight), the requests it sent,
    and the state once it has settled. *)
Record Run (State : Type) := {
  during : State;
  calls : list GenerateContentParameters;
  final : State
}.

Arguments during {State} r.
Arguments calls {State} r.
Arguments final {State} r.

(** What rendering the result panel comes to. *)
Record SuccessPanel := {
  shownCode : jsstring;
  shownExplanation : jsstring
}.

Inductive Rendering :=
| Throws
| Shows (panel : option SuccessPanel).

(** *** What the views render

    The views are kept to what depends on the state: which elements are
    rendered, their [disabled] attributes, their texts and the handlers they
    are wired to.  Class names and static markup are left out. *)

(** A button whose [disabled] attribute and text depend on the state. *)
Record Button := {
  disabled : bool;
  label : jsstring
}.

(** A chip of the field list: [toggleField(chipField)] on click. *)
Record Chip := {
  chipField : jsstring;
  chipSelected : bool
}.

Inductive Rendered (V : Type) : Type :=
| RenderThrows
| Renders (v : V).

Arguments RenderThrows {V}.
Arguments Renders {V} v.

(** The elements that can start a handler. *)
Inductive Control :=
| CtlExample
| CtlStartOver
| CtlTextarea
| CtlAnalyze
| CtlChip (field : jsstring)
| CtlCustomInput
| CtlAdd
| CtlGenerate
| CtlCopy.

(** ** The basic variant *)

Module Basic.

(** *** [services/geminiService.ts] *)

Module Service.

(** The parsed reply of the analysis, as [analyzeCurlSchema] reads it:
    [result.fields], which may be missing. *)
Record AnalyzeJson := { fields : option (list jsstring) }.

Definition analyzeCurlSchema_prompt (curlCommand : jsstring) : jsstring :=
  text [
    lit "";
    lit "    Analyze the following cURL command and predict the likely JSON response schema.";
    lit "    Return a flat list of strings representing the most useful field names (use dot notation for nested fields, e.g., 'id', 'user.name', 'meta.count').";
    lit "    ";
    lit "    cURL Command:";
    lit "    ```bash";
    lit "    "
  ] ++ curlCommand ++
  text [
    lit "";
    lit "    ```";
    lit "    ";
    lit "    If the API is well-known (like GitHub, Stripe, generic dummy APIs), use your knowledge to list actual fields. ";
    lit "    If unknown, infer probable fields based on the resource names in the URL or body.";
    lit "    Provide at least 5-10 likely fields.";
    lit "  "
  ].

Definition analyzeCurlSchema_request (curlCommand : jsstring)
  : GenerateContentParameters :=
  {| model := lit "gemini-3-flash-preview";
     contents := analyzeCurlSchema_prompt curlCommand;
     config :=
       {| responseMimeType := lit "application/json";
          responseSchema :=
            mkSchema OBJECT None None None
              (Some [
                 (lit "fields",
                  mkSchema ARRAY
                    (Some (lit "List of predicted JSON fields available in the response."))
                    None (Some (plain STRING)) None None)
               ])
              (Some [lit "fields"]) |} |}.

Definition analyzeCurlSchema (ai : Remote AnalyzeJson) (curlCommand : jsstring)
  : outcome (list jsstring) :=
  match ai (analyzeCurlSchema_request curlCommand) with
  | CallRejects err => Rejected err
  | TextUnparsable err => Rejected err
  | TextParses result =>
      (* return result.fields || []; *)
      Resolved (match fields result with
                | Some fs => fs
                | None => []
                end)
  end.

Definition fieldsDescription (selectedFields : list jsstring) : jsstring :=
  match selectedFields with
  | _ :: _ => join (lit ", ") selectedFields
  | [] => lit "All fields (no filtering)"
  end.

Definition convertCurlToPython_prompt (curlCommand : jsstring)
    (selectedFields : list jsstring) : jsstring :=
  text [
    lit "";
    lit "    Convert the following cURL command into a clean, professional Python script using the 'requests' library.";
    lit "    ";
    lit "    cURL Command:";
    lit "    ```bash";
    lit "    "
  ] ++ curlCommand ++
  text [
    lit "";
    lit "    ```";
    lit "    ";
    lit "    The user explicitly wants to extract ONLY these specific fields from the JSON response: ";
    lit "    [ "
  ] ++ fieldsDescription selectedFields ++
  text [
    lit " ]";
    lit "    ";
    lit "    Requirements:";
    lit "    1. Include error handling for the network request.";
    lit "    2. Add specific logic to filter the JSON response. Create a new dictionary/object containing ONLY the selected fields.";
    lit "    3. If nested fields were selected (e.g., 'user.profile.name'), ensure the Python logic traverses the dictionary safely (using .get() or try/except) to avoid KeyErrors if the field is missing.";
    lit "    4. Provide a sample 'mock' JSON response that demonstrates exactly what the *filtered* output will look like based on the user's selection.";
    lit "  "
  ].

Definition convertCurlToPython_request (curlCommand : jsstring)
    (selectedFields : list jsstring) : GenerateContentParameters :=
  {| model := lit "gemini-3-pro-preview";
     contents := convertCurlToPython_prompt curlCommand selectedFields;
     config :=
       {| responseMimeType := lit "application/json";
          responseSchema :=
            mkSchema OBJECT None None None
              (Some [
                 (lit "pythonCode",
                  mkSchema STRING
                    (Some (lit "The complete Python script including specific filtering logic for the selected fields."))
                    None None None None);
                 (lit "explanation",
                  mkSchema STRING
                    (Some (lit "A brief explanation of the code, specifically mentioning how the filtering works."))
                    None None None None);
                 (lit "mockResponse",
                  mkSchema STRING
                    (Some (lit "A stringified JSON example of the output containing only the selected fields."))
                    None None None None)
               ])
              (Some [lit "pythonCode"; lit "explanation"; lit "mockResponse"]) |} |}.

Definition convertCurlToPython (ai : Remote ConversionResponse)
    (curlCommand : jsstring) (selectedFields : list jsstring)
  : outcome ConversionResponse :=
  match ai (convertCurlToPython_request curlCommand selectedFields) with
  | CallRejects err => Rejected err
  | TextUnparsable err => Rejected err
  | TextParses result => Resolved result
  end.

End Service.

(** *** The controller ([App], with the custom-field form) *)

Import Service.

Record State := {
  curlInput : jsstring;
  status : AppStatus;
  availableFields : list jsstring;
  selectedFields : JsSet;
  result : option ConversionResponse;
  error : option jsstring;
  customField : jsstring
}.

(** The values [useState] starts from. *)
Definition initial : State :=
  {| curlInput := [];
     status := IDLE;
     availableFields := [];
     selectedFields := Set_empty;
     result := None;
     error := None;
     customField := [] |}.

Definition setCurlInput (v : jsstring) (s : State) : State :=
  {| curlInput := v; status := status s;
     availableFields := availableFields s;
     selectedFields := selectedFields s; result := result s;
     error := error s; customField := customField s |}.

Definition setStatus (v : AppStatus) (s : State) : State :=
  {| curlInput := curlInput s; status := v;
     availableFields := availableFields s;
     selectedFields := selectedFields s; result := result s;
     error := error s; customField := customField s |}.

Definition setAvailableFields (v : list jsstring) (s : State) : State :=
  {| curlInput := curlInput s; status := status s;
     availableFields := v;
     selectedFields := selectedFields s; result := result s;
     error := error s; customField := customField s |}.

Definition setSelectedFields (v : JsSet) (s : State) : State :=
  {| curlInput := curlInput s; status := status s;
     availableFields := availableFields s;
     selectedFields := v; result := result s;
     error := error s; customField := customField s |}.

Definition setResult (v : option ConversionResponse) (s : State) : State :=
  {| curlInput := curlInput s; status := status s;
     availableFields := availableFields s;
     selectedFields := selectedFields s; result := v;
     error := error s; customField := customField s |}.

Definition setError (v : option jsstring) (s : State) : State :=
  {| curlInput := curlInput s; status := status s;
     availableFields := availableFields s;
     selectedFields := selectedFields s; result := result s;
     error := v; customField := customField s |}.

Definition setCustomField (v : jsstring) (s : State) : State :=
  {| curlInput := curlInput s; status := status s;
     availableFields := availableFields s;
     selectedFields := selectedFields s; result := result s;
     error := error s; customField := v |}.

(** [handleAnalyze], up to its [await]: [None] when the guard returns. *)
Definition handleAnalyze_enter (s : State) : option State :=
  if falsy (trim (curlInput s)) then None
  else Some (setResult None (setError None (setStatus ANALYZING s))).

(** [handleAnalyze], from the settlement of the awaited call on. *)
Definition handleAnalyze_resume (settled : outcome (list jsstring))
    (s : State) : State :=
  match settled with
  | Resolved fields =>
      setStatus AWAITING_SELECTION
        (setSelectedFields (Set_of (slice0 3 fields))
           (setAvailableFields fields s))
  | Rejected err =>
      setStatus ERROR
        (setError
           (Some (message_or err
                    (lit "Failed to analyze cURL. Please check the command.")))
           s)
  end.

Definition handleAnalyze (ai : Remote AnalyzeJson) (s : State) : Run State :=
  match handleAnalyze_enter s with
  | None => {| during := s; calls := []; final := s |}
  | Some s1 =>
      {| during := s1;
         calls := [analyzeCurlSchema_request (curlInput s)];
         final :=
           handleAnalyze_resume (analyzeCurlSchema ai (curlInput s)) s1 |}
  end.

Definition handleGenerate_enter (s : State) : State :=
  setError None (setStatus GENERATING s).

Definition handleGenerate_resume (settled : outcome ConversionResponse)
    (s : State) : State :=
  match settled with
  | Resolved data => setStatus SUCCESS (setResult (Some data) s)
  | Rejected err =>
      setStatus ERROR
        (setError (Some (message_or err (lit "Failed to generate code."))) s)
  end.

Definition handleGenerate (ai : Remote ConversionResponse) (s : State)
  : Run State :=
  let s1 := handleGenerate_enter s in
  {| during := s1;
     calls :=
       [convertCurlToPython_request (curlInput s)
          (Array_from (selectedFields s))];
     final :=
       handleGenerate_resume
         (convertCurlToPython ai (curlInput s) (Array_from (selectedFields s)))
         s1 |}.

Definition handleReset (s : State) : State :=
  setError None
    (setResult None
       (setSelectedFields Set_empty
          (setAvailableFields [] (setStatus IDLE s)))).

Definition toggleField (field : jsstring) (s : State) : State :=
  let newSelected := selectedFields s in
  setSelectedFields
    (if Set_has newSelected field
     then Set_delete newSelected field
     else Set_add newSelected field)
    s.

(** [addCustomField]: both [setAvailableFields] and [toggleField] read the
    fields and the selection of the render the form was submitted from. *)
Definition addCustomField (s : State) : State :=
  if falsy (trim (customField s)) then s
  else
    let newField := trim (customField s) in
    setCustomField []
      (toggleField newField
         (setAvailableFields (availableFields s ++ [newField]) s)).

Definition handleExample (s : State) : State :=
  setError None
    (setStatus IDLE
       (setCurlInput
          (lit "curl -X GET " ++ dq ++
           lit "https://api.github.com/users/octocat" ++ dq ++
           lit " -H " ++ dq ++ lit "accept: application/json" ++ dq)
          s)).

(** The success panel of the view:
    [result && status === AppStatus.SUCCESS && ...], whose mock-response
    block evaluates [JSON.stringify(JSON.parse(result.mockResponse), null, 2)]. *)
Definition success_view (s : State) : Rendering :=
  match result s with
  | None => Shows None
  | Some r =>
      if AppStatus_eqb (status s) SUCCESS then
        if JSON_parse_returns (mockResponse r)
        then Shows (Some {| shownCode := pythonCode r;
                            shownExplanation := explanation r |})
        else Throws
      else Shows None
  end.

(** One step of the user interface or of the environment.  The relation
    lets any handler run in any state and any call settle at any time, which
    covers every interleaving the buttons allow (their [disabled] and
    visibility conditions only remove steps).  [toggleField] is reached
    through the chips only, one per available field. *)
Inductive step : State -> State -> Prop :=
| step_type (v : jsstring) (s : State) :
    step s (setCurlInput v s)
| step_type_custom (v : jsstring) (s : State) :
    step s (setCustomField v s)
| step_analyze_enter (s s1 : State) :
    handleAnalyze_enter s = Some s1 -> step s s1
| step_analyze_settle (settled : outcome (list jsstring)) (s : State) :
    step s (handleAnalyze_resume settled s)
| step_generate_enter (s : State) :
    step s (handleGenerate_enter s)
| step_generate_settle (settled : outcome ConversionResponse) (s : State) :
    step s (handleGenerate_resume settled s)
| step_reset (s : State) :
    step s (handleReset s)
| step_example (s : State) :
    step s (handleExample s)
| step_chip (field : jsstring) (s : State) :
    In field (availableFields s) -> step s (toggleField field s)
| step_add_custom (s : State) :
    step s (addCustomField s).

Inductive reachable : State -> Prop :=
| reachable_initial : reachable initial
| reachable_step (s s' : State) : reachable s -> step s s' -> reachable s'.

(** *** The view of [App] *)

Record FieldPanel := {
  selectedCount : nat;
  chips : list Chip;
  noFieldsHint : bool;
  customInput : jsstring;
  addButtonDisabled : bool;
  generateButton : Button
}.

(** What the output column shows when there is no result and no generation
    in flight. *)
Inductive Placeholder :=
| Detecting
| Hint (message : jsstring).

Record View := {
  exampleButton : bool;
  startOverButton : bool;
  textareaValue : jsstring;
  textareaDisabled : bool;
  analyzeButton : option Button;
  fieldPanel : option FieldPanel;
  errorBanner : option jsstring;
  fileLabel : jsstring;
  copyButton : option jsstring;
  placeholder : option Placeholder;
  generatingSpinner : bool;
  successPanel : option SuccessPanel
}.

(** [status === st] *)
Definition status_is (s : State) (st : AppStatus) : bool :=
  AppStatus_eqb (status s) st.

(** The JSX of [App]; an exception while evaluating the success panel
    aborts the whole render. *)
Definition view (s : State) : Rendered View :=
  match success_view s with
  | Throws => RenderThrows
  | Shows panel =>
      Renders
        {| exampleButton := status_is s IDLE;
           startOverButton := negb (status_is s IDLE) && negb (status_is s ANALYZING);
           textareaValue := curlInput s;
           textareaDisabled := negb (status_is s IDLE) && negb (status_is s ERROR);
           analyzeButton :=
             if status_is s IDLE || status_is s ERROR || status_is s ANALYZING then
               Some {| disabled := status_is s ANALYZING || falsy (curlInput s);
                       label :=
                         if status_is s ANALYZING
                         then lit "Analyzing API Schema..."
                         else lit "Analyze & Detect Fields" |}
             else None;
           fieldPanel :=
             if status_is s AWAITING_SELECTION || status_is s GENERATING || status_is s SUCCESS
             then
               Some {| selectedCount := List.length (selectedFields s);
                       chips :=
                         map (fun field =>
                                {| chipField := field;
                                   chipSelected :=
                                     Set_has (selectedFields s) field |})
                             (availableFields s);
                       noFieldsHint :=
                         Nat.eqb (List.length (availableFields s)) 0;
                       customInput := customField s;
                       addButtonDisabled := falsy (trim (customField s));
                       generateButton :=
                         {| disabled := status_is s GENERATING;
                            label :=
                              if status_is s GENERATING
                              then lit "Generating Code..."
                              else lit "Generate Python Script" |} |}
             else None;
           errorBanner :=
             match error s with
             | Some m => if falsy m then None else Some m
             | None => None
             end;
           fileLabel :=
             match result s with
             | Some _ => lit "filtered_request.py"
             | None => lit "terminal"
             end;
           copyButton :=
             match result s with
             | Some r => Some (pythonCode r)
             | None => None
             end;
           placeholder :=
             match result s with
             | Some _ => None
             | None =>
                 if negb (status_is s GENERATING) then
                   Some (if status_is s ANALYZING then Detecting
                         else Hint
                                (if status_is s AWAITING_SELECTION
                                 then lit "Select fields on the left to generate code."
                                 else lit "Ready to convert your command."))
                 else None
             end;
           generatingSpinner := status_is s GENERATING;
           successPanel := panel |}
  end.

(** Whether the rendered view lets the user operate [c]: the element is
    there and is not disabled. *)
Definition offers (v : View) (c : Control) : bool :=
  match c with
  | CtlExample => exampleButton v
  | CtlStartOver => startOverButton v
  | CtlTextarea => negb (textareaDisabled v)
  | CtlAnalyze =>
      match analyzeButton v with
      | Some b => negb (disabled b)
      | None => false
      end
  | CtlChip field =>
      match fieldPanel v with
      | Some p => existsb (fun c => jsstring_eqb field (chipField c)) (chips p)
      | None => false
      end
  | CtlCustomInput =>
      match fieldPanel v with Some _ => true | None => false end
  | CtlAdd =>
      match fieldPanel v with
      | Some p => negb (addButtonDisabled p)
      | None => false
      end
  | CtlGenerate =>
      match fieldPanel v with
      | Some p => negb (disabled (generateButton p))
      | None => false
      end
  | CtlCopy =>
      match copyButton v with Some _ => true | None => false end
  end.

(** The steps of [step] that the rendered controls allow: a handler runs
    when the element wired to it is offered; calls settle at any time. *)
Inductive ui_step : State -> State -> Prop :=
| ui_example (s : State) (v : View) :
    view s = Renders v -> offers v CtlExample = true ->
    ui_step s (handleExample s)
| ui_start_over (s : State) (v : View) :
    view s = Renders v -> offers v CtlStartOver = true ->
    ui_step s (handleReset s)
| ui_type (s : State) (v : View) (typed : jsstring) :
    view s = Renders v -> offers v CtlTextarea = true ->
    ui_step s (setCurlInput typed s)
| ui_analyze (s : State) (v : View) (s1 : State) :
    view s = Renders v -> offers v CtlAnalyze = true ->
    handleAnalyze_enter s = Some s1 ->
    ui_step s s1
| ui_chip (s : State) (v : View) (field : jsstring) :
    view s = Renders v -> offers v (CtlChip field) = true ->
    ui_step s (toggleField field s)
| ui_type_custom (s : State) (v : View) (typed : jsstring) :
    view s = Renders v -> offers v CtlCustomInput = true ->
    ui_step s (setCustomField typed s)
| ui_add (s : State) (v : View) :
    view s = Renders v -> offers v CtlAdd = true ->
    ui_step s (addCustomField s)
| ui_generate (s : State) (v : View) :
    view s = Renders v -> offers v CtlGenerate = true ->
    ui_step s (handleGenerate_enter s)
| ui_analysis_settles (settled : outcome (list jsstring)) (s : State) :
    ui_step s (handleAnalyze_resume settled s)
| ui_generation_settles (settled : outcome ConversionResponse) (s : State) :
    ui_step s (handleGenerate_resume settled s).

Inductive ui_reachable : State -> Prop :=
| ui_reachable_initial : ui_reachable initial
| ui_reachable_step (s s' : State) :
    ui_reachable s -> ui_step s s' -> ui_reachable s'.

End Basic.

(** ** The extended variant (volatile inputs) *)

Module Extended.

(** *** The service *)

Module Service.

Inductive VolatileType := header | query | body.

Record VolatileInput := {
  name : jsstring;
  currentValue : jsstring;
  type : VolatileType;
  description : jsstring
}.

Record AnalysisResult := {
  responseFields : list jsstring;
  volatileInputs : list VolatileInput
}.

Definition analyzeCurlSchema_prompt (curlCommand : jsstring) : jsstring :=
  text [
    lit "";
    lit "    Analyze the following cURL command. ";
    lit "    1. Predict the likely JSON response schema (useful field names in dot notation).";
    lit "    2. Identify " ++ dq ++ lit "Volatile Inputs" ++ dq ++ lit ": These are parts of the request that are likely to expire or need changing tomorrow (e.g., Authorization tokens, API keys, session cookies, timestamps, or nonce values).";
    lit "    ";
    lit "    cURL Command:";
    lit "    ```bash";
    lit "    "
  ] ++ curlCommand ++
  text [
    lit "";
    lit "    ```";
    lit "    ";
    lit "    Return a JSON object with:";
    lit "    - 'responseFields': array of predicted response field names.";
    lit "    - 'volatileInputs': array of objects { name, currentValue, type, description } for things like 'Authorization', 'Cookie', etc.";
    lit "  "
  ].

Definition analyzeCurlSchema_request (curlCommand : jsstring)
  : GenerateContentParameters :=
  {| model := lit "gemini-3-flash-preview";
     contents := analyzeCurlSchema_prompt curlCommand;
     config :=
       {| responseMimeType := lit "application/json";
          responseSchema :=
            mkSchema OBJECT None None None
              (Some [
                 (lit "responseFields",
                  mkSchema ARRAY None None (Some (plain STRING)) None None);
                 (lit "volatileInputs",
                  mkSchema ARRAY None None
                    (Some
                       (mkSchema OBJECT None None None
                          (Some [
                             (lit "name", plain STRING);
                             (lit "currentValue", plain STRING);
                             (lit "type",
                              mkSchema STRING None
                                (Some [lit "header"; lit "query"; lit "body"])
                                None None None);
                             (lit "description", plain STRING)
                           ])
                          (Some [lit "name"; lit "currentValue"; lit "type";
                                 lit "description"])))
                    None None)
               ])
              (Some [lit "responseFields"; lit "volatileInputs"]) |} |}.

Definition analyzeCurlSchema (ai : Remote AnalysisResult)
    (curlCommand : jsstring) : outcome AnalysisResult :=
  match ai (analyzeCurlSchema_request curlCommand) with
  | CallRejects err => Rejected err
  | TextUnparsable err => Rejected err
  | TextParses result => Resolved result
  end.

Definition fieldsDescription (selectedFields : list jsstring) : jsstring :=
  match selectedFields with
  | _ :: _ => join (lit ", ") selectedFields
  | [] => lit "All fields"
  end.

(** The generation request embeds [JSON.stringify(volatileInputs)]; the
    serialiser is the platform's and is a parameter here. *)
Section Generate.

Variable JSON_stringify : list VolatileInput -> jsstring.

Definition convertCurlToPython_prompt (curlCommand : jsstring)
    (selectedFields : list jsstring) (volatileInputs : list VolatileInput)
  : jsstring :=
  text [
    lit "";
    lit "    Convert this cURL to a production-ready Python script using 'requests'.";
    lit "    ";
    lit "    cURL:";
    lit "    ```bash";
    lit "    "
  ] ++ curlCommand ++
  text [
    lit "";
    lit "    ```";
    lit "    ";
    lit "    Selected Response Extraction: [ "
  ] ++ fieldsDescription selectedFields ++
  text [
    lit " ]";
    lit "    ";
    lit "    CRITICAL INSTRUCTION:";
    lit "    The user needs to run this script repeatedly, but some fields (tokens/headers) might expire.";
    lit "    1. Create a " ++ dq ++ lit "CONFIGURATION" ++ dq ++ lit " section at the top of the script using variables or a dictionary.";
    lit "    2. Put all identified volatile inputs ("
  ] ++ JSON_stringify volatileInputs ++
  text [
    lit ") into this configuration section.";
    lit "    3. Use these variables in the actual request call.";
    lit "    4. Ensure the response is handled as JSON.";
    lit "    5. Filter the response to include ONLY the selected fields.";
    lit "    6. Include a 'mockResponse' that shows the filtered output.";
    lit "  "
  ].

Definition convertCurlToPython_request (curlCommand : jsstring)
    (selectedFields : list jsstring) (volatileInputs : list VolatileInput)
  : GenerateContentParameters :=
  {| model := lit "gemini-3-pro-preview";
     contents :=
       convertCurlToPython_prompt curlCommand selectedFields volatileInputs;
     config :=
       {| responseMimeType := lit "application/json";
          responseSchema :=
            mkSchema OBJECT None None None
              (Some [
                 (lit "pythonCode", plain STRING);
                 (lit "explanation", plain STRING);
                 (lit "mockResponse", plain STRING)
               ])
              (Some [lit "pythonCode"; lit "explanation"; lit "mockResponse"]) |} |}.

Definition convertCurlToPython (ai : Remote ConversionResponse)
    (curlCommand : jsstring) (selectedFields : list jsstring)
    (volatileInputs : list VolatileInput) : outcome ConversionResponse :=
  match ai (convertCurlToPython_request curlCommand selectedFields
              volatileInputs) with
  | CallRejects err => Rejected err
  | TextUnparsable err => Rejected err
  | TextParses result => Resolved result
  end.

End Generate.

End Service.

(** *** The controller *)

Import Service.

Record State := {
  curlInput : jsstring;
  status : AppStatus;
  availableFields : list jsstring;
  volatileInputs : list VolatileInput;
  selectedFields : JsSet;
  result : option ConversionResponse;
  error : option jsstring;
  customField : jsstring
}.

Definition initial : State :=
  {| curlInput := [];
     status := IDLE;
     availableFields := [];
     volatileInputs := [];
     selectedFields := Set_empty;
     result := None;
     error := None;
     customField := [] |}.

Definition setCurlInput (v : jsstring) (s : State) : State :=
  {| curlInput := v; status := status s;
     availableFields := availableFields s;
     volatileInputs := volatileInputs s;
     selectedFields := selectedFields s; result := result s;
     error := error s; customField := customField s |}.

Definition setStatus (v : AppStatus) (s : State) : State :=
  {| curlInput := curlInput s; status := v;
     availableFields := availableFields s;
     volatileInputs := volatileInputs s;
     selectedFields := selectedFields s; result := result s;
     error := error s; customField := customField s |}.

Definition setAvailableFields (v : list jsstring) (s : State) : State :=
  {| curlInput := curlInput s; status := status s;
     availableFields := v;
     volatileInputs := volatileInputs s;
     selectedFields := selectedFields s; result := result s;
     error := error s; customField := customField s |}.

Definition setVolatileInputs (v : list VolatileInput) (s : State) : State :=
  {| curlInput := curlInput s; status := status s;
     availableFields := availableFields s;
     volatileInputs := v;
     selectedFields := selectedFields s; result := result s;
     error := error s; customField := customField s |}.

Definition setSelectedFields (v : JsSet) (s : State) : State :=
  {| curlInput := curlInput s; status := status s;
     availableFields := availableFields s;
     volatileInputs := volatileInputs s;
     selectedFields := v; result := result s;
     error := error s; customField := customField s |}.

Definition setResult (v : option ConversionResponse) (s : State) : State :=
  {| curlInput := curlInput s; status := status s;
     availableFields := availableFields s;
     volatileInputs := volatileInputs s;
     selectedFields := selectedFields s; result := v;
     error := error s; customField := customField s |}.

Definition setError (v : option jsstring) (s : State) : State :=
  {| curlInput := curlInput s; status := status s;
     availableFields := availableFields s;
     volatileInputs := volatileInputs s;
     selectedFields := selectedFields s; result := result s;
     error := v; customField := customField s |}.

Definition handleAnalyze_enter (s : State) : option State :=
  if falsy (trim (curlInput s)) then None
  else Some (setResult None (setError None (setStatus ANALYZING s))).

Definition handleAnalyze_resume (settled : outcome AnalysisResult)
    (s : State) : State :=
  match settled with
  | Resolved analysis =>
      setStatus AWAITING_SELECTION
        (setSelectedFields (Set_of (slice0 3 (responseFields analysis)))
           (setVolatileInputs (Service.volatileInputs analysis)
              (setAvailableFields (responseFields analysis) s)))
  | Rejected err =>
      setStatus ERROR
        (setError
           (Some (message_or err
                    (lit "Failed to analyze cURL. Please check the command.")))
           s)
  end.

Definition handleAnalyze (ai : Remote AnalysisResult) (s : State)
  : Run State :=
  match handleAnalyze_enter s with
  | None => {| during := s; calls := []; final := s |}
  | Some s1 =>
      {| during := s1;
         calls := [analyzeCurlSchema_request (curlInput s)];
         final :=
           handleAnalyze_resume (analyzeCurlSchema ai (curlInput s)) s1 |}
  end.

Definition handleGenerate_enter (s : State) : State :=
  setError None (setStatus GENERATING s).

Definition handleGenerate_resume (settled : outcome ConversionResponse)
    (s : State) : State :=
  match settled with
  | Resolved data => setStatus SUCCESS (setResult (Some data) s)
  | Rejected err =>
      setStatus ERROR
        (setError (Some (message_or err (lit "Failed to generate code."))) s)
  end.

Section Serialiser.

Variable JSON_stringify : list VolatileInput -> jsstring.

Definition handleGenerate (ai : Remote ConversionResponse) (s : State)
  : Run State :=
  let s1 := handleGenerate_enter s in
  {| during := s1;
     calls :=
       [convertCurlToPython_request JSON_stringify (curlInput s)
          (Array_from (selectedFields s)) (volatileInputs s)];
     final :=
       handleGenerate_resume
         (convertCurlToPython JSON_stringify ai (curlInput s)
            (Array_from (selectedFields s)) (volatileInputs s))
         s1 |}.

End Serialiser.

Definition handleReset (s : State) : State :=
  setError None
    (setResult None
       (setSelectedFields Set_empty
          (setVolatileInputs []
             (setAvailableFields [] (setStatus IDLE s))))).

Definition toggleField (field : jsstring) (s : State) : State :=
  let newSelected := selectedFields s in
  setSelectedFields
    (if Set_has newSelected field
     then Set_delete newSelected field
     else Set_add newSelected field)
    s.

Definition handleExample (s : State) : State :=
  setError None
    (setStatus IDLE
       (setCurlInput
          (lit "curl -X GET " ++ dq ++
           lit "https://api.github.com/user" ++ dq ++
           lit " -H " ++ dq ++
           lit "Authorization: Bearer YOUR_EXPIRING_TOKEN" ++ dq ++
           lit " -H " ++ dq ++ lit "X-GitHub-Api-Version: 2022-11-28" ++ dq)
          s)).

Definition success_view (s : State) : Rendering :=
  match result s with
  | None => Shows None
  | Some r =>
      if AppStatus_eqb (status s) SUCCESS then
        if JSON_parse_returns (mockResponse r)
        then Shows (Some {| shownCode := pythonCode r;
                            shownExplanation := explanation r |})
        else Throws
      else Shows None
  end.

(** As for the basic variant: every handler in every state, calls settling
    at any time, and [toggleField] through the chips of the available
    fields. *)
Inductive step : State -> State -> Prop :=
| step_type (v : jsstring) (s : State) :
    step s (setCurlInput v s)
| step_analyze_enter (s s1 : State) :
    handleAnalyze_enter s = Some s1 -> step s s1
| step_analyze_settle (settled : outcome AnalysisResult) (s : State) :
    step s (handleAnalyze_resume settled s)
| step_generate_enter (s : State) :
    step s (handleGenerate_enter s)
| step_generate_settle (settled : outcome ConversionResponse) (s : State) :
    step s (handleGenerate_resume settled s)
| step_reset (s : State) :
    step s (handleReset s)
| step_example (s : State) :
    step s (handleExample s)
| step_chip (field : jsstring) (s : State) :
    In field (availableFields s) -> step s (toggleField field s).

Inductive reachable : State -> Prop :=
| reachable_initial : reachable initial
| reachable_step (s s' : State) : reachable s -> step s s' -> reachable s'.

(** *** The view of [App] *)

(** A detected volatile input, as the panel lists it. *)
Record VolatileRow := {
  rowName : jsstring;
  rowDescription : jsstring;
  rowType : VolatileType
}.

Record FieldPanel := {
  volatileRows : option (list VolatileRow);
  chips : list Chip;
  generateButton : Button
}.

Record View := {
  textareaValue : jsstring;
  analyzeButton : Button;
  fieldPanel : option FieldPanel;
  copyButton : option jsstring;
  placeholder : bool;
  generatingSpinner : bool;
  successPanel : option SuccessPanel
}.

Definition status_is (s : State) (st : AppStatus) : bool :=
  AppStatus_eqb (status s) st.

(** The JSX of [App].  The example button and the text area are always
    there and enabled; nothing is wired to [handleReset] and nothing reads
    [error]. *)
Definition view (s : State) : Rendered View :=
  match success_view s with
  | Throws => RenderThrows
  | Shows panel =>
      Renders
        {| textareaValue := curlInput s;
           analyzeButton :=
             {| disabled := falsy (curlInput s) || status_is s ANALYZING;
                label :=
                  if status_is s ANALYZING
                  then lit "Detecting Volatile Fields..."
                  else lit "Analyze Command" |};
           fieldPanel :=
             if status_is s AWAITING_SELECTION || status_is s SUCCESS then
               Some {| volatileRows :=
                         match volatileInputs s with
                         | [] => None
                         | _ :: _ =>
                             Some (map (fun input =>
                                          {| rowName := name input;
                                             rowDescription :=
                                               description input;
                                             rowType := type input |})
                                       (volatileInputs s))
                         end;
                       chips :=
                         map (fun field =>
                                {| chipField := field;
                                   chipSelected :=
                                     Set_has (selectedFields s) field |})
                             (availableFields s);
                       generateButton :=
                         {| disabled := status_is s GENERATING;
                            label :=
                              if status_is s GENERATING
                              then lit "Generating Reusable Script..."
                              else lit "Convert to Reusable Python" |} |}
             else None;
           copyButton :=
             match result s with
             | Some r => Some (pythonCode r)
             | None => None
             end;
           placeholder :=
             match result s with
             | Some _ => false
             | None => negb (status_is s GENERATING)
             end;
           generatingSpinner := status_is s GENERATING;
           successPanel := panel |}
  end.

Definition offers (v : View) (c : Control) : bool :=
  match c with
  | CtlExample => true
  | CtlStartOver => false
  | CtlTextarea => true
  | CtlAnalyze => negb (disabled (analyzeButton v))
  | CtlChip field =>
      match fieldPanel v with
      | Some p => existsb (fun c => jsstring_eqb field (chipField c)) (chips p)
      | None => false
      end
  | CtlCustomInput => false
  | CtlAdd => false
  | CtlGenerate =>
      match fieldPanel v with
      | Some p => negb (disabled (generateButton p))
      | None => false
      end
  | CtlCopy =>
      match copyButton v with Some _ => true | None => false end
  end.

End Extended.

(** ** Vocabulary of the statements *)

(** Empty, or white space only. *)
Definition blank (s : jsstring) : Prop := forallb is_ws s = true.


(** Membership in a selection set, as [Set.prototype.has] answers it. *)
Definition member (x : jsstring) (s : JsSet) : Prop := Set_has s x = true.

(** The error a state holds is a message of one character at least. *)
Definition holds_message (e : option jsstring) : Prop :=
  exists m, e = Some m /\ m <> [].

(** What [err.message || fallback] is specified to give: the message of
    the thrown value when it has one, the fallback text otherwise. *)
Definition reduced_to (err : JsError) (fallback : jsstring)
    (e : option jsstring) : Prop :=
  (forall m, message err = Some m -> m <> [] -> e = Some m) /\
  (message err = None \/ message err = Some [] -> e = Some fallback).



(** The selection after a toggle, for any set and field. *)
Definition toggled (sel : JsSet) (field : jsstring) : JsSet :=
  if Set_has sel field then Set_delete sel field else Set_add sel field.

(** *** Reading a response schema *)

Fixpoint lookup (key : jsstring) (ps : list (jsstring * Schema))
  : option Schema :=
  match ps with
  | [] => None
  | (k, v) :: rest => if jsstring_eqb key k then Some v else lookup key rest
  end.

Definition property (sch : Schema) (key : jsstring) : option Schema :=
  match properties sch with
  | Some ps => lookup key ps
  | None => None
  end.

Definition requires (sch : Schema) (key : jsstring) : bool :=
  match required sch with
  | Some keys => existsb (jsstring_eqb key) keys
  | None => false
  end.

Definition is_object (sch : Schema) : bool :=
  match type sch with OBJECT => true | _ => false end.

(** A string, whatever its values. *)
Definition is_string (sch : Schema) : bool :=
  match type sch, enum sch with
  | STRING, None => true
  | _, _ => false
  end.

(** A string restricted to [values]. *)
Definition is_string_among (values : list jsstring) (sch : Schema) : bool :=
  match type sch, enum sch with
  | STRING, Some vs =>
      if list_eq_dec jsstring_eq_dec vs values then true else false
  | _, _ => false
  end.

Definition is_array_of (elem : Schema -> bool) (sch : Schema) : bool :=
  match type sch, items sch with
  | ARRAY, Some i => elem i
  | _, _ => false
  end.

(** [sch] has a property [key] that [shape] accepts, and lists it as
    required. *)
Definition requires_property (shape : Schema -> bool) (sch : Schema)
    (key : jsstring) : bool :=
  requires sch key &&
  match property sch key with
  | Some p => shape p
  | None => false
  end.

(** An object with required string [name], string [currentValue], [type]
    among header, query and body, and string [description]. *)
Definition is_volatile_input (sch : Schema) : bool :=
  is_object sch &&
  requires_property is_string sch (lit "name") &&
  requires_property is_string sch (lit "currentValue") &&
  requires_property
    (is_string_among [lit "header"; lit "query"; lit "body"])
    sch (lit "type") &&
  requires_property is_string sch (lit "description").

(** The contract the specification gives every analysis request. *)
Definition declares_responseFields (sch : Schema) : bool :=
  is_object sch &&
  requires_property (is_array_of is_string) sch (lit "responseFields").

Definition declares_volatileInputs (sch : Schema) : bool :=
  requires_property (is_array_of is_volatile_input) sch (lit "volatileInputs").

(** *** The properties of the specification that the code does not have,
    as the specification words them *)

(** Analysis ends in [AWAITING_SELECTION] with a non-empty field list whose
    first three names are selected, or in [ERROR] with a message. *)
Definition analyze_as_specified (ai : Remote Basic.Service.AnalyzeJson)
    (s : Basic.State) : Prop :=
  let r := Basic.handleAnalyze ai s in
  Basic.status (during r) = ANALYZING /\
  ((Basic.status (final r) = AWAITING_SELECTION /\
    Basic.availableFields (final r) <> [] /\
    forall f, member f (Basic.selectedFields (final r)) <->
              In f (slice0 3 (Basic.availableFields (final r))))
   \/
   (Basic.status (final r) = ERROR /\
    holds_message (Basic.error (final r)))).

(** Generation ends in [SUCCESS] with three non-empty strings, or in
    [ERROR]. *)
Definition generate_as_specified (ai : Remote ConversionResponse)
    (s : Basic.State) : Prop :=
  let r := Basic.handleGenerate ai s in
  Basic.status (during r) = GENERATING /\
  ((Basic.status (final r) = SUCCESS /\
    exists d, Basic.result (final r) = Some d /\
              pythonCode d <> [] /\ explanation d <> [] /\
              mockResponse d <> [])
   \/
   Basic.status (final r) = ERROR).


(** *** Sample runs *)

(** The example command, pasted into a fresh controller. *)
Definition basic_pasted : Basic.State := Basic.handleExample Basic.initial.

Definition extended_pasted : Extended.State :=
  Extended.handleExample Extended.initial.

(** Two spaces, a tab, a line feed and a no-break space. *)
Definition blank_text : jsstring := lit "  " ++ [9; 10; 160].

(** A model that answers [{ fields: [] }]. *)
Definition finds_nothing : Remote Basic.Service.AnalyzeJson :=
  fun _ => TextParses {| Basic.Service.fields := Some [] |}.

Definition profile_fields : list jsstring :=
  [lit "login"; lit "id"; lit "name"; lit "company"].

Definition finds_profile : Remote Basic.Service.AnalyzeJson :=
  fun _ => TextParses {| Basic.Service.fields := Some profile_fields |}.

Definition finds_profile_and_token : Remote Extended.Service.AnalysisResult :=
  fun _ =>
    TextParses
      {| Extended.Service.responseFields := profile_fields;
         Extended.Service.volatileInputs :=
           [{| Extended.Service.name := lit "Authorization";
               Extended.Service.currentValue := lit "Bearer YOUR_EXPIRING_TOKEN";
               Extended.Service.type := Extended.Service.header;
               Extended.Service.description := lit "Bearer token that expires" |}] |}.

(** A call that fails before any reply. *)
Definition offline {R : Type} : Remote R :=
  fun _ => CallRejects {| message := Some (lit "Failed to fetch") |}.

(** A reply that leaves the explanation empty. *)
Definition terse : Remote ConversionResponse :=
  fun _ =>
    TextParses {| pythonCode := lit "import requests";
                  explanation := [];
                  mockResponse := lit "{}" |}.

(** A reply whose mock response is prose. *)
Definition prose_mock : ConversionResponse :=
  {| pythonCode := lit "import requests";
     explanation := lit "Keeps the selected fields.";
     mockResponse := lit "not json" |}.

Definition replies_prose : Remote ConversionResponse :=
  fun _ => TextParses prose_mock.

(** The states after an analysis of the example command. *)
Definition basic_analyzed : Basic.State :=
  final (Basic.handleAnalyze finds_profile basic_pasted).

Definition basic_none_found : Basic.State :=
  final (Basic.handleAnalyze finds_nothing basic_pasted).

Definition extended_analyzed : Extended.State :=
  final (Extended.handleAnalyze finds_profile_and_token extended_pasted).

(** The same, with a name typed into the custom-field form. *)
Definition basic_custom : Basic.State :=
  Basic.setCustomField (lit " data.items ") basic_analyzed.

(** A serialiser for the runs in which its argument does not matter. *)
Definition stringify_brackets (vs : list Extended.Service.VolatileInput) : jsstring :=
  match vs with
  | [] => lit "[]"
  | _ :: _ => lit "[{}]"
  end.

(** *** What the status says about the rest of the state *)

Definition basic_coherent (s : Basic.State) : Prop :=
  (Basic.status s = SUCCESS -> exists d, Basic.result s = Some d) /\
  (Basic.status s = ERROR -> holds_message (Basic.error s)) /\
  (Basic.status s = ANALYZING ->
   Basic.result s = None /\ Basic.error s = None) /\
  (Basic.status s = GENERATING -> Basic.error s = None) /\
  (Basic.status s = IDLE -> Basic.error s = None).


(** Nothing is left of an earlier analysis or generation. *)
Definition basic_clean (s : Basic.State) : Prop :=
  Basic.availableFields s = [] /\
  Basic.selectedFields s = Set_empty /\
  Basic.result s = None /\
  Basic.error s = None.

(** *** More sample runs *)

(** A resolved generation after the analysis of the example. *)
Definition replies_script : Remote ConversionResponse :=
  fun _ =>
    TextParses {| pythonCode := lit "import requests";
                  explanation := lit "Keeps login, id and name.";
                  mockResponse := lit "{}" |}.

Definition basic_generated : Basic.State :=
  final (Basic.handleGenerate replies_script basic_analyzed).

Definition extended_generated : Extended.State :=
  final (Extended.handleGenerate stringify_brackets replies_script
           extended_analyzed).

(** A second generation, which fails. *)
Definition basic_regeneration_failed : Basic.State :=
  final (Basic.handleGenerate offline basic_generated).

(** A custom name that is already selected. *)
Definition basic_custom_again : Basic.State :=
  Basic.setCustomField (lit "id") basic_analyzed.

(** White space typed into a fresh controller. *)
Definition basic_spaces : Basic.State :=
  Basic.setCurlInput blank_text Basic.initial.

Definition extended_spaces : Extended.State :=
  Extended.setCurlInput blank_text Extended.initial.

(** An analysis of the example that fails. *)
Definition basic_offline : Basic.State :=
  final (Basic.handleAnalyze offline basic_pasted).

(** The states while the calls are in flight. *)
Definition basic_analyzing : Basic.State :=
  during (Basic.handleAnalyze finds_profile basic_pasted).

Definition basic_generating : Basic.State :=
  during (Basic.handleGenerate replies_script basic_analyzed).

Definition extended_generating : Extended.State :=
  during (Extended.handleGenerate stringify_brackets replies_script
            extended_analyzed).

(** ** Strings and sets *)

Lemma jsstring_eqb_eq (a b : jsstring) : jsstring_eqb a b = true <-> a = b.
Proof.
  revert b; induction a as [|x a IH]; intros [|y b]; simpl;
    try (split; [discriminate | congruence]); try tauto.
  rewrite andb_true_iff, N.eqb_eq, IH.
  split; [intros [-> ->]; reflexivity | intros H; inversion H; auto].
Qed.

Lemma jsstring_eqb_refl (a : jsstring) : jsstring_eqb a a = true.
Proof. apply jsstring_eqb_eq; reflexivity. Qed.

Lemma jsstring_eqb_neq (a b : jsstring) : jsstring_eqb a b = false <-> a <> b.
Proof.
  rewrite <- jsstring_eqb_eq.
  destruct (jsstring_eqb a b); split; congruence.
Qed.

Lemma trimStart_nil (s : jsstring) : trimStart s = [] <-> blank s.
Proof.
  unfold blank; induction s as [|c r IH]; simpl; [tauto|].
  destruct (is_ws c); simpl; [exact IH | split; discriminate].
Qed.

Lemma trimStart_idem (s : jsstring) : trimStart (trimStart s) = trimStart s.
Proof.
  induction s as [|c r IH]; simpl; [reflexivity|].
  destruct (is_ws c) eqn:E; [exact IH | simpl; rewrite E; reflexivity].
Qed.

Lemma blank_rev (s : jsstring) : blank (rev s) <-> blank s.
Proof.
  unfold blank; rewrite !forallb_forall.
  split; intros H x Hx; apply H; [apply in_rev in Hx | apply in_rev]; auto.
Qed.

(** [!s.trim()] holds of the blank strings and of no other. *)
Lemma trim_falsy (s : jsstring) : falsy (trim s) = true <-> blank s.
Proof.
  unfold trim, trimEnd.
  assert (F : forall t : jsstring, falsy t = true <-> t = [])
    by (intros [|? ?]; simpl; split; congruence).
  rewrite F; split.
  - intros H.
    assert (H1 : trimStart (rev (trimStart s)) = [])
      by (rewrite <- (rev_involutive (trimStart _)), H; reflexivity).
    apply (proj1 (trimStart_nil _)), (proj1 (blank_rev _)) in H1.
    apply (proj2 (trimStart_nil _)) in H1.
    rewrite trimStart_idem in H1; apply trimStart_nil; exact H1.
  - intros H; apply trimStart_nil in H; rewrite H; reflexivity.
Qed.

Lemma trim_not_falsy (s : jsstring) : falsy (trim s) = false <-> ~ blank s.
Proof.
  rewrite <- trim_falsy; destruct (falsy (trim s)); split; congruence.
Qed.

Lemma Set_has_In (s : JsSet) (x : jsstring) : member x s <-> In x s.
Proof.
  unfold member, Set_has; rewrite existsb_exists; split.
  - intros (y & Hy & E); apply jsstring_eqb_eq in E; subst; exact Hy.
  - intros H; exists x; split; [exact H | apply jsstring_eqb_refl].
Qed.

Lemma Set_add_In (s : JsSet) (x y : jsstring) :
  In y (Set_add s x) <-> In y s \/ y = x.
Proof.
  unfold Set_add; destruct (Set_has s x) eqn:E.
  - apply Set_has_In in E; split; [auto | intros [H | ->]; auto].
  - rewrite in_app_iff; simpl; intuition.
Qed.

Lemma Set_delete_In (s : JsSet) (x y : jsstring) :
  In y (Set_delete s x) <-> In y s /\ y <> x.
Proof.
  unfold Set_delete; rewrite filter_In, negb_true_iff, jsstring_eqb_neq.
  intuition.
Qed.

Lemma fold_Set_add_In (xs : list jsstring) (acc : JsSet) (y : jsstring) :
  In y (fold_left Set_add xs acc) <-> In y acc \/ In y xs.
Proof.
  revert acc; induction xs as [|x xs IH]; intros acc; simpl; [tauto|].
  rewrite IH, Set_add_In; intuition.
Qed.

Lemma Set_of_In (xs : list jsstring) (y : jsstring) :
  In y (Set_of xs) <-> In y xs.
Proof. unfold Set_of; rewrite fold_Set_add_In; simpl; tauto. Qed.

Lemma message_or_nonempty (err : JsError) (fallback : jsstring) :
  fallback <> [] -> message_or err fallback <> [].
Proof.
  unfold message_or; intros H.
  destruct (message err) as [[|c m]|]; simpl; auto; discriminate.
Qed.

Lemma toggled_In (sel : JsSet) (field x : jsstring) :
  In x (toggled sel field) <->
  (In x sel /\ x <> field) \/ (~ In field sel /\ (In x sel \/ x = field)).
Proof.
  unfold toggled; destruct (Set_has sel field) eqn:E.
  - apply Set_has_In in E; rewrite Set_delete_In; intuition.
  - assert (N : ~ In field sel)
      by (intros H; apply Set_has_In in H; unfold member in H; congruence).
    rewrite Set_add_In; tauto.
Qed.

(** ** The JSON recogniser does not depend on its fuel *)

Lemma scan_value_S (fuel : nat) (s : jsstring) :
  scan_value (S fuel) s =
  match s with
  | [] => None
  | c :: r =>
      if c =? 123 then
        match skip_ws r with
        | [] => None
        | c1 :: r1 =>
            if c1 =? 125 then Some r1 else scan_members fuel (c1 :: r1)
        end
      else if c =? 91 then
        match skip_ws r with
        | [] => None
        | c1 :: r1 =>
            if c1 =? 93 then Some r1 else scan_elements fuel (c1 :: r1)
        end
      else if c =? 34 then scan_string r
      else if c =? 116 then strip_prefix (lit "true") s
      else if c =? 102 then strip_prefix (lit "false") s
      else if c =? 110 then strip_prefix (lit "null") s
      else scan_number s
  end.
Proof. reflexivity. Qed.

Lemma scan_elements_S (fuel : nat) (s : jsstring) :
  scan_elements (S fuel) s =
  match scan_value fuel s with
  | None => None
  | Some r =>
      match skip_ws r with
      | [] => None
      | c :: r1 =>
          if c =? 44 then scan_elements fuel (skip_ws r1)
          else if c =? 93 then Some r1
          else None
      end
  end.
Proof. reflexivity. Qed.

Lemma scan_members_S (fuel : nat) (s : jsstring) :
  scan_members (S fuel) s =
  match s with
  | [] => None
  | q :: r =>
      if q =? 34 then
        match scan_string r with
        | None => None
        | Some r1 =>
            match skip_ws r1 with
            | [] => None
            | c :: r2 =>
                if c =? 58 then
                  match scan_value fuel (skip_ws r2) with
                  | None => None
                  | Some r3 =>
                      match skip_ws r3 with
                      | [] => None
                      | d :: r4 =>
                          if d =? 44 then scan_members fuel (skip_ws r4)
                          else if d =? 125 then Some r4
                          else None
                      end
                  end
                else None
            end
        end
      else None
  end.
Proof. reflexivity. Qed.

Lemma skip_ws_length (s : jsstring) :
  (List.length (skip_ws s) <= List.length s)%nat.
Proof.
  induction s as [|c r IH]; simpl; [lia|].
  destruct (json_ws c); simpl; lia.
Qed.

Lemma skip_digits_length (s : jsstring) :
  (List.length (skip_digits s) <= List.length s)%nat.
Proof.
  induction s as [|c r IH]; simpl; [lia|].
  destruct (is_digit c); simpl; lia.
Qed.

Lemma scan_string_length (s r : jsstring) :
  scan_string s = Some r -> (List.length r < List.length s)%nat.
Proof.
  remember (List.length s) as n eqn:E.
  revert s r E; induction n as [n IH] using lt_wf_ind; intros s r E H.
  destruct s as [|c s1]; [discriminate|]; simpl in H, E.
  destruct (c =? 34).
  - injection H as <-; lia.
  - destruct (c =? 92).
    + destruct s1 as [|e s2]; [discriminate|]; simpl in E.
      destruct (is_simple_escape e).
      * apply (IH (List.length s2)) in H; [lia | lia | reflexivity].
      * destruct (e =? 117); [|discriminate].
        destruct s2 as [|h1 [|h2 [|h3 [|h4 s3]]]]; try discriminate.
        simpl in E.
        destruct (is_hex h1 && is_hex h2 && is_hex h3 && is_hex h4);
          [|discriminate].
        apply (IH (List.length s3)) in H; [lia | lia | reflexivity].
    + destruct (c <? 32); [discriminate|].
      apply (IH (List.length s1)) in H; [lia | lia | reflexivity].
Qed.

Lemma scan_digits1_length (s r : jsstring) :
  scan_digits1 s = Some r -> (List.length r < List.length s)%nat.
Proof.
  destruct s as [|c s1]; simpl; [discriminate|].
  destruct (is_digit c); [|discriminate].
  intros H; injection H as <-.
  pose proof (skip_digits_length s1); lia.
Qed.

Lemma scan_number_length (s r : jsstring) :
  scan_number s = Some r -> (List.length r < List.length s)%nat.
Proof.
  unfold scan_number; intros H.
  destruct (scan_int _) as [s1|] eqn:I; [|discriminate].
  destruct (scan_frac s1) as [s2|] eqn:F; [|discriminate].
  assert (L1 : (List.length s1 < List.length s)%nat).
  { assert (G : forall u, scan_int u = Some s1 ->
                          (List.length s1 < List.length u)%nat).
    { intros [|c u]; simpl; [discriminate|].
      destruct (c =? 48); [intros G; injection G as <-; lia|].
      destruct (is_digit c); [|discriminate].
      intros G; injection G as <-.
      pose proof (skip_digits_length u); lia. }
    destruct s as [|c s0]; [discriminate|].
    destruct (c =? 45); apply G in I; simpl in *; lia. }
  assert (L2 : (List.length s2 <= List.length s1)%nat).
  { destruct s1 as [|c u]; simpl in F; [injection F as <-; simpl; lia|].
    destruct (c =? 46).
    - apply scan_digits1_length in F; simpl; lia.
    - injection F as <-; lia. }
  assert (L3 : (List.length r <= List.length s2)%nat).
  { destruct s2 as [|c u]; simpl in H; [injection H as <-; simpl; lia|].
    destruct ((c =? 101) || (c =? 69)).
    - destruct u as [|sgn v]; [discriminate|].
      destruct ((sgn =? 43) || (sgn =? 45));
        apply scan_digits1_length in H; simpl in *; lia.
    - injection H as <-; lia. }
  lia.
Qed.

Lemma strip_prefix_length (p s r : jsstring) :
  strip_prefix p s = Some r ->
  (List.length r + List.length p = List.length s)%nat.
Proof.
  revert s; induction p as [|x p IH]; intros s; simpl.
  - intros H; injection H as <-; lia.
  - destruct s as [|y s1]; [discriminate|].
    destruct (x =? y); [|discriminate].
    intros H; apply IH in H; simpl; lia.
Qed.

(** What a run with some fuel accepts is accepted with any fuel that is at
    least twice the number of characters read. *)
Lemma scan_needs (fuel : nat) :
  (forall s r, scan_value fuel s = Some r ->
     (List.length r < List.length s)%nat /\
     forall f, (2 * (List.length s - List.length r) <= f)%nat ->
               scan_value f s = Some r) /\
  (forall s r, scan_elements fuel s = Some r ->
     (List.length r < List.length s)%nat /\
     forall f, (2 * (List.length s - List.length r) <= f)%nat ->
               scan_elements f s = Some r) /\
  (forall s r, scan_members fuel s = Some r ->
     (List.length r < List.length s)%nat /\
     forall f, (2 * (List.length s - List.length r) <= f)%nat ->
               scan_members f s = Some r).
Proof.
  induction fuel as [|fuel (IHv & IHe & IHm)];
    [repeat split; discriminate|].
  split; [|split]; intros s r H.
  - (* a value *)
    rewrite scan_value_S in H.
    destruct s as [|c s0]; [discriminate|].
    assert (L : (List.length r < List.length (c :: s0))%nat).
    { pose proof (skip_ws_length s0) as W; simpl.
      destruct (c =? 123).
      { destruct (skip_ws s0) as [|c1 r1]; [discriminate|]; simpl in W.
        destruct (c1 =? 125); [injection H as <-; lia|].
        apply IHm in H as [H _]; simpl in H; lia. }
      destruct (c =? 91).
      { destruct (skip_ws s0) as [|c1 r1]; [discriminate|]; simpl in W.
        destruct (c1 =? 93); [injection H as <-; lia|].
        apply IHe in H as [H _]; simpl in H; lia. }
      destruct (c =? 34); [apply scan_string_length in H; lia|].
      destruct (c =? 116); [apply strip_prefix_length in H; simpl in H; lia|].
      destruct (c =? 102); [apply strip_prefix_length in H; simpl in H; lia|].
      destruct (c =? 110); [apply strip_prefix_length in H; simpl in H; lia|].
      apply scan_number_length in H; simpl in H; lia. }
    split; [exact L|].
    intros [|f] F; [lia|]; rewrite scan_value_S.
    pose proof (skip_ws_length s0) as W; cbn [List.length] in F, L.
    destruct (c =? 123).
    { destruct (skip_ws s0) as [|c1 r1]; [discriminate|]; simpl in W.
      destruct (c1 =? 125); [exact H|].
      apply IHm in H as [H1 H2]; apply H2; cbn [List.length] in *; lia. }
    destruct (c =? 91).
    { destruct (skip_ws s0) as [|c1 r1]; [discriminate|]; simpl in W.
      destruct (c1 =? 93); [exact H|].
      apply IHe in H as [H1 H2]; apply H2; cbn [List.length] in *; lia. }
    exact H.
  - (* the elements of an array *)
    rewrite scan_elements_S in H.
    destruct (scan_value fuel s) as [r0|] eqn:V; [|discriminate].
    apply IHv in V as [V1 V2].
    pose proof (skip_ws_length r0) as W.
    destruct (skip_ws r0) as [|c r1] eqn:K; [discriminate|]; simpl in W.
    pose proof (skip_ws_length r1) as W1.
    assert (L : (List.length r <= List.length r1)%nat).
    { destruct (c =? 44); [apply IHe in H as [H _]; lia|].
      destruct (c =? 93); [injection H as <-; lia | discriminate]. }
    split; [lia|].
    intros [|f] F; [lia|]; rewrite scan_elements_S.
    rewrite V2, K by lia.
    destruct (c =? 44); [|exact H].
    apply IHe in H as [H1 H2]; apply H2; lia.
  - (* the members of an object *)
    rewrite scan_members_S in H.
    destruct s as [|q s0]; [discriminate|].
    destruct (q =? 34) eqn:Q; [|discriminate].
    destruct (scan_string s0) as [r1|] eqn:S1; [|discriminate].
    pose proof (scan_string_length _ _ S1) as L1.
    pose proof (skip_ws_length r1) as W1.
    destruct (skip_ws r1) as [|c r2] eqn:K1; [discriminate|]; simpl in W1.
    destruct (c =? 58) eqn:C; [|discriminate].
    pose proof (skip_ws_length r2) as W2.
    destruct (scan_value fuel (skip_ws r2)) as [r3|] eqn:V; [|discriminate].
    apply IHv in V as [V1 V2].
    pose proof (skip_ws_length r3) as W3.
    destruct (skip_ws r3) as [|d r4] eqn:K3; [discriminate|]; simpl in W3.
    pose proof (skip_ws_length r4) as W4.
    assert (L : (List.length r <= List.length r4)%nat).
    { destruct (d =? 44); [apply IHm in H as [H _]; lia|].
      destruct (d =? 125); [injection H as <-; lia | discriminate]. }
    cbn [List.length]; split; [lia|].
    intros [|f] F; [lia|]; rewrite scan_members_S, Q, S1, K1, C.
    rewrite V2, K3 by lia.
    destruct (d =? 44); [|exact H].
    apply IHm in H as [H1 H2]; apply H2; lia.
Qed.

(** The fuel [JSON_parse_returns] runs with is enough: a text that some
    fuel accepts is accepted. *)
Lemma JSON_parse_fuel_enough (fuel : nat) (text : jsstring) :
  accepts_with fuel text = true -> JSON_parse_returns text = true.
Proof.
  unfold JSON_parse_returns, accepts_with.
  destruct (scan_value fuel (skip_ws text)) as [r|] eqn:V; [|discriminate].
  apply scan_needs in V as [L V]; intros H.
  pose proof (skip_ws_length text).
  rewrite V by lia; exact H.
Qed.

(** A text that [JSON_parse_returns] rejects is rejected whatever the
    fuel. *)
Lemma JSON_parse_throws_any_fuel (text : jsstring) :
  JSON_parse_returns text = false ->
  forall fuel, accepts_with fuel text = false.
Proof.
  intros H fuel; destruct (accepts_with fuel text) eqn:E; [|reflexivity].
  apply JSON_parse_fuel_enough in E; congruence.
Qed.

Example JSON_parse_accepts_objects :
  JSON_parse_returns
    (lit " {" ++ dq ++ lit "login" ++ dq ++ lit ": " ++ dq ++ lit "octocat" ++
     dq ++ lit ", " ++ dq ++ lit "plan" ++ dq ++ lit ": {" ++ dq ++
     lit "seats" ++ dq ++ lit ": [1, -2.5e3, true, null]}} ") = true.
Proof. reflexivity. Qed.

Example JSON_parse_rejects_prose :
  map JSON_parse_returns
    [lit "not json"; lit ""; lit "{'id': 1}"; lit "[1,]"; lit "01"; lit "{} {}"]
  = [false; false; false; false; false; false].
Proof. reflexivity. Qed.

(** ** The selection is a set *)

Lemma Set_add_NoDup (s : JsSet) (x : jsstring) :
  NoDup s -> NoDup (Set_add s x).
Proof.
  unfold Set_add; intros H; destruct (Set_has s x) eqn:E; [exact H|].
  apply NoDup_app; [exact H | repeat constructor; intros [] |].
  intros a Ha [<- | []].
  apply Set_has_In in Ha; unfold member in Ha; congruence.
Qed.

Lemma Set_delete_NoDup (s : JsSet) (x : jsstring) :
  NoDup s -> NoDup (Set_delete s x).
Proof. apply NoDup_filter. Qed.

Lemma Set_of_NoDup (xs : list jsstring) : NoDup (Set_of xs).
Proof.
  unfold Set_of.
  assert (G : forall acc, NoDup acc -> NoDup (fold_left Set_add xs acc)).
  { induction xs as [|x xs IH]; intros acc H; simpl; [exact H|].
    apply IH, Set_add_NoDup, H. }
  apply G; constructor.
Qed.

Lemma toggled_NoDup (sel : JsSet) (field : jsstring) :
  NoDup sel -> NoDup (toggled sel field).
Proof.
  unfold toggled; destruct (Set_has sel field);
    [apply Set_delete_NoDup | apply Set_add_NoDup].
Qed.

(** ** The controller *)

Lemma basic_toggleField_selection (field : jsstring) (s : Basic.State) :
  Basic.selectedFields (Basic.toggleField field s) =
  toggled (Basic.selectedFields s) field.
Proof. reflexivity. Qed.

Lemma extended_toggleField_selection (field : jsstring) (s : Extended.State) :
  Extended.selectedFields (Extended.toggleField field s) =
  toggled (Extended.selectedFields s) field.
Proof. reflexivity. Qed.

Lemma toggled_member (sel : JsSet) (field : jsstring) :
  (member field sel ->
   forall x, member x (toggled sel field) <-> member x sel /\ x <> field) /\
  (~ member field sel ->
   forall x, member x (toggled sel field) <-> member x sel \/ x = field) /\
  (forall x, member x (toggled (toggled sel field) field) <-> member x sel).
Proof.
  split; [|split].
  - intros H x; rewrite !Set_has_In in *; rewrite toggled_In; tauto.
  - intros H x; rewrite !Set_has_In in *; rewrite toggled_In; tauto.
  - intros x; rewrite !Set_has_In, !toggled_In.
    destruct (jsstring_eq_dec x field) as [-> | D];
      destruct (in_dec jsstring_eq_dec field sel);
      intuition congruence.
Qed.

(** C3.  When the cURL text is empty or white space only, [handleAnalyze]
    returns at its guard: the state during and after the run is the state it
    started from, fields, selection, result and error included, and no
    request is sent.  Both variants. *)
Theorem analyze_blank_is_noop :
  (forall (ai : Remote Basic.Service.AnalyzeJson) (s : Basic.State),
     blank (Basic.curlInput s) ->
     Basic.handleAnalyze ai s = {| during := s; calls := []; final := s |}) /\
  (forall (ai : Remote Extended.Service.AnalysisResult) (s : Extended.State),
     blank (Extended.curlInput s) ->
     Extended.handleAnalyze ai s = {| during := s; calls := []; final := s |}).
Proof.
  split; intros ai s H; apply trim_falsy in H.
  - unfold Basic.handleAnalyze, Basic.handleAnalyze_enter.
    rewrite H; reflexivity.
  - unfold Extended.handleAnalyze, Extended.handleAnalyze_enter.
    rewrite H; reflexivity.
Qed.

(** C4.  Toggling a field that the selection holds removes it, toggling a
    field that it does not hold adds it, and toggling the same field twice
    gives back a selection with the members it had.  Both variants. *)
Theorem toggle_membership :
  (forall (field : jsstring) (s : Basic.State),
     let sel := Basic.selectedFields s in
     let once := Basic.selectedFields (Basic.toggleField field s) in
     let twice :=
       Basic.selectedFields
         (Basic.toggleField field (Basic.toggleField field s)) in
     (member field sel ->
      forall x, member x once <-> member x sel /\ x <> field) /\
     (~ member field sel ->
      forall x, member x once <-> member x sel \/ x = field) /\
     (forall x, member x twice <-> member x sel)) /\
  (forall (field : jsstring) (s : Extended.State),
     let sel := Extended.selectedFields s in
     let once := Extended.selectedFields (Extended.toggleField field s) in
     let twice :=
       Extended.selectedFields
         (Extended.toggleField field (Extended.toggleField field s)) in
     (member field sel ->
      forall x, member x once <-> member x sel /\ x <> field) /\
     (~ member field sel ->
      forall x, member x once <-> member x sel \/ x = field) /\
     (forall x, member x twice <-> member x sel)).
Proof.
  split; intros field s; cbv zeta.
  - rewrite !basic_toggleField_selection; apply toggled_member.
  - rewrite !extended_toggleField_selection; apply toggled_member.
Qed.

(** C5.  [handleReset] keeps the cURL text and sets the available fields
    to the empty list, the selection to the empty set, the result and the
    error to null and the status to [IDLE].  Both variants. *)
Theorem reset_clears_all_but_text :
  (forall s : Basic.State,
     let s' := Basic.handleReset s in
     Basic.curlInput s' = Basic.curlInput s /\
     Basic.availableFields s' = [] /\
     Basic.selectedFields s' = Set_empty /\
     Basic.result s' = None /\
     Basic.error s' = None /\
     Basic.status s' = IDLE) /\
  (forall s : Extended.State,
     let s' := Extended.handleReset s in
     Extended.curlInput s' = Extended.curlInput s /\
     Extended.availableFields s' = [] /\
     Extended.selectedFields s' = Set_empty /\
     Extended.result s' = None /\
     Extended.error s' = None /\
     Extended.status s' = IDLE).
Proof. split; intros s; cbv zeta; repeat split. Qed.

Lemma basic_analyze_run (ai : Remote Basic.Service.AnalyzeJson) (s : Basic.State) :
  ~ blank (Basic.curlInput s) ->
  Basic.handleAnalyze ai s =
  {| during := Basic.setResult None
                 (Basic.setError None (Basic.setStatus ANALYZING s));
     calls := [Basic.Service.analyzeCurlSchema_request (Basic.curlInput s)];
     final :=
       Basic.handleAnalyze_resume
         (Basic.Service.analyzeCurlSchema ai (Basic.curlInput s))
         (Basic.setResult None
            (Basic.setError None (Basic.setStatus ANALYZING s))) |}.
Proof.
  intros H; apply trim_not_falsy in H.
  unfold Basic.handleAnalyze, Basic.handleAnalyze_enter.
  rewrite H; reflexivity.
Qed.

Lemma extended_analyze_run (ai : Remote Extended.Service.AnalysisResult)
    (s : Extended.State) :
  ~ blank (Extended.curlInput s) ->
  Extended.handleAnalyze ai s =
  {| during := Extended.setResult None
                 (Extended.setError None (Extended.setStatus ANALYZING s));
     calls := [Extended.Service.analyzeCurlSchema_request (Extended.curlInput s)];
     final :=
       Extended.handleAnalyze_resume
         (Extended.Service.analyzeCurlSchema ai (Extended.curlInput s))
         (Extended.setResult None
            (Extended.setError None (Extended.setStatus ANALYZING s))) |}.
Proof.
  intros H; apply trim_not_falsy in H.
  unfold Extended.handleAnalyze, Extended.handleAnalyze_enter.
  rewrite H; reflexivity.
Qed.

Lemma holds_message_or (err : JsError) (fallback : jsstring) :
  fallback <> [] -> holds_message (Some (message_or err fallback)).
Proof.
  intros H; exists (message_or err fallback); split; [reflexivity|].
  apply message_or_nonempty; exact H.
Qed.

Lemma selected_first_three (fields : list jsstring) (f : jsstring) :
  member f (Set_of (slice0 3 fields)) <-> In f (slice0 3 fields).
Proof. rewrite Set_has_In; apply Set_of_In. Qed.

(** C1, as the code has it.  When the cURL text is not blank,
    [handleAnalyze] sets the status to [ANALYZING] before its call, sends one
    analysis request, and ends in exactly one of two ways: the call resolved
    with a list of field names, possibly empty, and the state is
    [AWAITING_SELECTION] with that list as available fields and its first
    three names (all of them when there are fewer) selected; or the call was
    rejected and the state is [ERROR] with a non-empty message.  Both
    variants. *)
Theorem analyze_transitions :
  (forall (ai : Remote Basic.Service.AnalyzeJson) (s : Basic.State),
     ~ blank (Basic.curlInput s) ->
     let r := Basic.handleAnalyze ai s in
     Basic.status (during r) = ANALYZING /\
     calls r = [Basic.Service.analyzeCurlSchema_request (Basic.curlInput s)] /\
     ((exists fields,
         Basic.Service.analyzeCurlSchema ai (Basic.curlInput s) = Resolved fields /\
         Basic.status (final r) = AWAITING_SELECTION /\
         Basic.availableFields (final r) = fields /\
         forall f, member f (Basic.selectedFields (final r)) <->
                   In f (slice0 3 fields))
      \/
      (exists err,
         Basic.Service.analyzeCurlSchema ai (Basic.curlInput s) = Rejected err /\
         Basic.status (final r) = ERROR /\
         holds_message (Basic.error (final r))))) /\
  (forall (ai : Remote Extended.Service.AnalysisResult) (s : Extended.State),
     ~ blank (Extended.curlInput s) ->
     let r := Extended.handleAnalyze ai s in
     Extended.status (during r) = ANALYZING /\
     calls r = [Extended.Service.analyzeCurlSchema_request (Extended.curlInput s)] /\
     ((exists analysis,
         Extended.Service.analyzeCurlSchema ai (Extended.curlInput s)
           = Resolved analysis /\
         Extended.status (final r) = AWAITING_SELECTION /\
         Extended.availableFields (final r)
           = Extended.Service.responseFields analysis /\
         forall f, member f (Extended.selectedFields (final r)) <->
                   In f (slice0 3 (Extended.Service.responseFields analysis)))
      \/
      (exists err,
         Extended.Service.analyzeCurlSchema ai (Extended.curlInput s)
           = Rejected err /\
         Extended.status (final r) = ERROR /\
         holds_message (Extended.error (final r))))).
Proof.
  split; intros ai s H; cbv zeta.
  - rewrite (basic_analyze_run ai s H); cbn [during calls final].
    split; [reflexivity | split; [reflexivity|]].
    destruct (Basic.Service.analyzeCurlSchema ai (Basic.curlInput s)) as [fields|err].
    + left; exists fields; repeat split; try apply selected_first_three.
    + right; exists err; repeat split.
      apply holds_message_or; discriminate.
  - rewrite (extended_analyze_run ai s H); cbn [during calls final].
    split; [reflexivity | split; [reflexivity|]].
    destruct (Extended.Service.analyzeCurlSchema ai (Extended.curlInput s))
      as [analysis|err].
    + left; exists analysis; repeat split; try apply selected_first_three.
    + right; exists err; repeat split.
      apply holds_message_or; discriminate.
Qed.

(** C2, as the code has it.  [handleGenerate] sets the status to
    [GENERATING] before its call and ends in exactly one of two ways: the
    call resolved and the state is [SUCCESS] with the resolved
    [ConversionResponse] as result, its three strings being whatever the
    reply held, empty or not; or the call was rejected and the state is
    [ERROR] with a non-empty message.  Both variants. *)
Theorem generate_transitions :
  (forall (ai : Remote ConversionResponse) (s : Basic.State),
     let r := Basic.handleGenerate ai s in
     let settled :=
       Basic.Service.convertCurlToPython ai (Basic.curlInput s)
         (Array_from (Basic.selectedFields s)) in
     Basic.status (during r) = GENERATING /\
     ((exists d, settled = Resolved d /\
                 Basic.status (final r) = SUCCESS /\
                 Basic.result (final r) = Some d)
      \/
      (exists err, settled = Rejected err /\
                   Basic.status (final r) = ERROR /\
                   holds_message (Basic.error (final r))))) /\
  (forall (JSON_stringify : list Extended.Service.VolatileInput -> jsstring)
          (ai : Remote ConversionResponse) (s : Extended.State),
     let r := Extended.handleGenerate JSON_stringify ai s in
     let settled :=
       Extended.Service.convertCurlToPython JSON_stringify ai (Extended.curlInput s)
         (Array_from (Extended.selectedFields s))
         (Extended.volatileInputs s) in
     Extended.status (during r) = GENERATING /\
     ((exists d, settled = Resolved d /\
                 Extended.status (final r) = SUCCESS /\
                 Extended.result (final r) = Some d)
      \/
      (exists err, settled = Rejected err /\
                   Extended.status (final r) = ERROR /\
                   holds_message (Extended.error (final r))))).
Proof.
  split.
  - intros ai s; cbv zeta; unfold Basic.handleGenerate; cbn [during final].
    split; [reflexivity|].
    destruct (Basic.Service.convertCurlToPython ai _ _) as [d|err].
    + left; exists d; repeat split.
    + right; exists err; repeat split.
      apply holds_message_or; discriminate.
  - intros js ai s; cbv zeta; unfold Extended.handleGenerate;
      cbn [during final].
    split; [reflexivity|].
    destruct (Extended.Service.convertCurlToPython js ai _ _ _) as [d|err].
    + left; exists d; repeat split.
    + right; exists err; repeat split.
      apply holds_message_or; discriminate.
Qed.

Lemma message_or_reduced (err : JsError) (fallback : jsstring) :
  reduced_to err fallback (Some (message_or err fallback)).
Proof.
  unfold reduced_to, message_or; split.
  - intros m E N; rewrite E; destruct m; [contradiction | reflexivity].
  - intros [E | E]; rewrite E; reflexivity.
Qed.

(** C6.  When the analysis call or the generation call is rejected, the
    handler ends with status [ERROR] and with the error set to the message
    of the thrown value when it has one (a non-empty string) and to the
    handler's fixed fallback text otherwise; after a rejected generation
    the available fields and the selection are the ones the handler started
    with.  Both variants. *)
Theorem failures_end_in_error :
  (forall (ai : Remote Basic.Service.AnalyzeJson) (s : Basic.State) (err : JsError),
     ~ blank (Basic.curlInput s) ->
     Basic.Service.analyzeCurlSchema ai (Basic.curlInput s) = Rejected err ->
     let s' := final (Basic.handleAnalyze ai s) in
     Basic.status s' = ERROR /\
     reduced_to err (lit "Failed to analyze cURL. Please check the command.")
       (Basic.error s')) /\
  (forall (ai : Remote ConversionResponse) (s : Basic.State) (err : JsError),
     Basic.Service.convertCurlToPython ai (Basic.curlInput s)
       (Array_from (Basic.selectedFields s)) = Rejected err ->
     let s' := final (Basic.handleGenerate ai s) in
     Basic.status s' = ERROR /\
     reduced_to err (lit "Failed to generate code.") (Basic.error s') /\
     Basic.availableFields s' = Basic.availableFields s /\
     Basic.selectedFields s' = Basic.selectedFields s) /\
  (forall (ai : Remote Extended.Service.AnalysisResult) (s : Extended.State)
          (err : JsError),
     ~ blank (Extended.curlInput s) ->
     Extended.Service.analyzeCurlSchema ai (Extended.curlInput s) = Rejected err ->
     let s' := final (Extended.handleAnalyze ai s) in
     Extended.status s' = ERROR /\
     reduced_to err (lit "Failed to analyze cURL. Please check the command.")
       (Extended.error s')) /\
  (forall (JSON_stringify : list Extended.Service.VolatileInput -> jsstring)
          (ai : Remote ConversionResponse) (s : Extended.State)
          (err : JsError),
     Extended.Service.convertCurlToPython JSON_stringify ai (Extended.curlInput s)
       (Array_from (Extended.selectedFields s))
       (Extended.volatileInputs s) = Rejected err ->
     let s' := final (Extended.handleGenerate JSON_stringify ai s) in
     Extended.status s' = ERROR /\
     reduced_to err (lit "Failed to generate code.") (Extended.error s') /\
     Extended.availableFields s' = Extended.availableFields s /\
     Extended.selectedFields s' = Extended.selectedFields s).
Proof.
  split; [|split; [|split]].
  - intros ai s err H E; cbv zeta.
    rewrite (basic_analyze_run ai s H); cbn [final]; rewrite E.
    split; [reflexivity | apply message_or_reduced].
  - intros ai s err E; cbv zeta.
    unfold Basic.handleGenerate; cbn [final]; rewrite E.
    split; [reflexivity | split; [apply message_or_reduced | split; reflexivity]].
  - intros ai s err H E; cbv zeta.
    rewrite (extended_analyze_run ai s H); cbn [final]; rewrite E.
    split; [reflexivity | apply message_or_reduced].
  - intros js ai s err E; cbv zeta.
    unfold Extended.handleGenerate; cbn [final]; rewrite E.
    split; [reflexivity | split; [apply message_or_reduced | split; reflexivity]].
Qed.

(** C7, as the code has it.  The contract every analysis request declares
    is an object; in the basic variant it requires [fields], an array of
    strings; in the extended variant it requires [responseFields], an array
    of strings, and [volatileInputs], an array of objects with required
    string [name], string [currentValue], [type] among header, query and
    body, and string [description]. *)
Theorem analysis_contract :
  (forall curlCommand : jsstring,
     let sch :=
       responseSchema (config (Basic.Service.analyzeCurlSchema_request curlCommand)) in
     is_object sch = true /\
     requires_property (is_array_of is_string) sch (lit "fields") = true) /\
  (forall curlCommand : jsstring,
     let sch :=
       responseSchema
         (config (Extended.Service.analyzeCurlSchema_request curlCommand)) in
     declares_responseFields sch = true /\
     declares_volatileInputs sch = true).
Proof. split; intros curlCommand; split; reflexivity. Qed.








(** The list that stands for the selection of a reachable state repeats
    no name. *)
Lemma basic_reachable_selection_NoDup (s : Basic.State) :
  Basic.reachable s -> NoDup (Basic.selectedFields s).
Proof.
  intros R; induction R as [|s s' _ IH St]; [constructor|].
  destruct St as
    [v s | v s | s s1 E | [fields|err] s | s | [d|err] s | s | s
     | field s Hf | s];
    cbn; try exact IH.
  - unfold Basic.handleAnalyze_enter in E.
    destruct (falsy (trim (Basic.curlInput s))); [discriminate|].
    injection E as <-; exact IH.
  - apply Set_of_NoDup.
  - constructor.
  - apply toggled_NoDup, IH.
  - unfold Basic.addCustomField.
    destruct (falsy (trim (Basic.customField s))); [exact IH|]; cbn.
    apply toggled_NoDup, IH.
Qed.

Lemma extended_reachable_selection_NoDup (s : Extended.State) :
  Extended.reachable s -> NoDup (Extended.selectedFields s).
Proof.
  intros R; induction R as [|s s' _ IH St]; [constructor|].
  destruct St as
    [v s | s s1 E | [analysis|err] s | s | [d|err] s | s | s | field s Hf];
    cbn; try exact IH.
  - unfold Extended.handleAnalyze_enter in E.
    destruct (falsy (trim (Extended.curlInput s))); [discriminate|].
    injection E as <-; exact IH.
  - apply Set_of_NoDup.
  - constructor.
  - apply toggled_NoDup, IH.
Qed.


(** C10.  A generation that resolves with a [ConversionResponse] whose
    [mockResponse] is not JSON text ends in [SUCCESS] with that response as
    result and no error recorded, and the success view of that state throws:
    its [JSON.parse] is evaluated while rendering, after the handler and its
    [catch] have finished.  Such responses exist.  Both variants. *)
Theorem success_view_may_throw :
  (forall (ai : Remote ConversionResponse) (s : Basic.State)
          (d : ConversionResponse),
     Basic.Service.convertCurlToPython ai (Basic.curlInput s)
       (Array_from (Basic.selectedFields s)) = Resolved d ->
     JSON_parse_returns (mockResponse d) = false ->
     let s' := final (Basic.handleGenerate ai s) in
     Basic.status s' = SUCCESS /\
     Basic.result s' = Some d /\
     Basic.error s' = None /\
     Basic.success_view s' = Throws) /\
  (forall (JSON_stringify : list Extended.Service.VolatileInput -> jsstring)
          (ai : Remote ConversionResponse) (s : Extended.State)
          (d : ConversionResponse),
     Extended.Service.convertCurlToPython JSON_stringify ai (Extended.curlInput s)
       (Array_from (Extended.selectedFields s))
       (Extended.volatileInputs s) = Resolved d ->
     JSON_parse_returns (mockResponse d) = false ->
     let s' := final (Extended.handleGenerate JSON_stringify ai s) in
     Extended.status s' = SUCCESS /\
     Extended.result s' = Some d /\
     Extended.error s' = None /\
     Extended.success_view s' = Throws) /\
  (exists d : ConversionResponse,
     pythonCode d <> [] /\ explanation d <> [] /\ mockResponse d <> [] /\
     JSON_parse_returns (mockResponse d) = false).
Proof.
  split; [|split].
  - intros ai s d E P; cbv zeta.
    unfold Basic.handleGenerate; cbn [final]; rewrite E.
    unfold Basic.success_view; cbn; rewrite P; repeat split.
  - intros js ai s d E P; cbv zeta.
    unfold Extended.handleGenerate; cbn [final]; rewrite E.
    unfold Extended.success_view; cbn; rewrite P; repeat split.
  - exists prose_mock; repeat split; discriminate.
Qed.

(** ** The sample runs *)

Lemma example_not_blank :
  ~ blank (Basic.curlInput basic_pasted) /\
  ~ blank (Extended.curlInput extended_pasted).
Proof. split; unfold blank; vm_compute; discriminate. Defined.

(** C1 as the specification words it fails when the model finds no field:
    the example command is not blank, and the analysis ends in
    [AWAITING_SELECTION] with no available field. *)
Lemma analyze_may_find_no_field :
  ~ (~ blank (Basic.curlInput basic_pasted) ->
     analyze_as_specified finds_nothing basic_pasted).
Proof.
  intros H.
  destruct (H (proj1 example_not_blank)) as [_ [(_ & N & _) | (E & _)]].
  - apply N; reflexivity.
  - discriminate E.
Qed.

Lemma analyze_transitions_witness :
  (~ blank (Basic.curlInput basic_pasted) /\
   Basic.status (during (Basic.handleAnalyze finds_profile basic_pasted))
     = ANALYZING) /\
  (~ blank (Extended.curlInput extended_pasted) /\
   Extended.status
     (during (Extended.handleAnalyze finds_profile_and_token extended_pasted))
     = ANALYZING).
Proof.
  refine (conj (conj (proj1 example_not_blank) _)
               (conj (proj2 example_not_blank) _)).
  - exact (proj1 (proj1 analyze_transitions finds_profile basic_pasted
                    (proj1 example_not_blank))).
  - exact (proj1 (proj2 analyze_transitions finds_profile_and_token
                    extended_pasted (proj2 example_not_blank))).
Defined.

(** C2 as the specification words it fails on a reply with an empty
    explanation: generation ends in [SUCCESS] all the same. *)
Lemma generate_may_return_empty_strings :
  ~ generate_as_specified terse basic_analyzed.
Proof.
  intros [_ [(_ & d & R & _ & N & _) | E]].
  - injection R as <-; apply N; reflexivity.
  - discriminate E.
Qed.

Lemma analyze_blank_is_noop_witness :
  (blank (Basic.curlInput (Basic.setCurlInput blank_text basic_analyzed)) /\
   final (Basic.handleAnalyze finds_nothing
            (Basic.setCurlInput blank_text basic_analyzed))
     = Basic.setCurlInput blank_text basic_analyzed) /\
  (blank
     (Extended.curlInput (Extended.setCurlInput blank_text extended_analyzed)) /\
   final (Extended.handleAnalyze offline
            (Extended.setCurlInput blank_text extended_analyzed))
     = Extended.setCurlInput blank_text extended_analyzed).
Proof.
  refine (conj (conj eq_refl _) (conj eq_refl _)).
  - exact (f_equal final
             (proj1 analyze_blank_is_noop finds_nothing
                (Basic.setCurlInput blank_text basic_analyzed) eq_refl)).
  - exact (f_equal final
             (proj2 analyze_blank_is_noop offline
                (Extended.setCurlInput blank_text extended_analyzed) eq_refl)).
Defined.

Lemma toggle_membership_witness :
  (member (lit "id") (Basic.selectedFields basic_analyzed) /\
   (member (lit "login")
      (Basic.selectedFields (Basic.toggleField (lit "id") basic_analyzed)) <->
    member (lit "login") (Basic.selectedFields basic_analyzed) /\
    lit "login" <> lit "id")) /\
  (~ member (lit "company") (Basic.selectedFields basic_analyzed) /\
   (member (lit "company")
      (Basic.selectedFields
         (Basic.toggleField (lit "company") basic_analyzed)) <->
    member (lit "company") (Basic.selectedFields basic_analyzed) \/
    lit "company" = lit "company")) /\
  (member (lit "id") (Extended.selectedFields extended_analyzed) /\
   (member (lit "login")
      (Extended.selectedFields
         (Extended.toggleField (lit "id") extended_analyzed)) <->
    member (lit "login") (Extended.selectedFields extended_analyzed) /\
    lit "login" <> lit "id")) /\
  (~ member (lit "company") (Extended.selectedFields extended_analyzed) /\
   (member (lit "company")
      (Extended.selectedFields
         (Extended.toggleField (lit "company") extended_analyzed)) <->
    member (lit "company") (Extended.selectedFields extended_analyzed) \/
    lit "company" = lit "company")).
Proof.
  assert (Y : forall sel, sel = [lit "login"; lit "id"; lit "name"] ->
                member (lit "id") sel)
    by (intros sel ->; reflexivity).
  assert (N : forall sel, sel = [lit "login"; lit "id"; lit "name"] ->
                ~ member (lit "company") sel)
    by (intros sel ->; unfold member; vm_compute; discriminate).
  refine (conj (conj _ _) (conj (conj _ _) (conj (conj _ _) (conj _ _)))).
  - apply Y; reflexivity.
  - exact (proj1 (proj1 toggle_membership (lit "id") basic_analyzed)
             (Y _ eq_refl) (lit "login")).
  - apply N; reflexivity.
  - exact (proj1 (proj2 (proj1 toggle_membership (lit "company")
                           basic_analyzed))
             (N _ eq_refl) (lit "company")).
  - apply Y; reflexivity.
  - exact (proj1 (proj2 toggle_membership (lit "id") extended_analyzed)
             (Y _ eq_refl) (lit "login")).
  - apply N; reflexivity.
  - exact (proj1 (proj2 (proj2 toggle_membership (lit "company")
                           extended_analyzed))
             (N _ eq_refl) (lit "company")).
Defined.

Lemma failures_end_in_error_witness :
  (~ blank (Basic.curlInput basic_pasted) /\
   Basic.Service.analyzeCurlSchema offline (Basic.curlInput basic_pasted)
     = Rejected {| message := Some (lit "Failed to fetch") |} /\
   Basic.status (final (Basic.handleAnalyze offline basic_pasted)) = ERROR) /\
  (Basic.Service.convertCurlToPython offline (Basic.curlInput basic_analyzed)
     (Array_from (Basic.selectedFields basic_analyzed))
     = Rejected {| message := Some (lit "Failed to fetch") |} /\
   Basic.status (final (Basic.handleGenerate offline basic_analyzed))
     = ERROR) /\
  (~ blank (Extended.curlInput extended_pasted) /\
   Extended.Service.analyzeCurlSchema offline (Extended.curlInput extended_pasted)
     = Rejected {| message := Some (lit "Failed to fetch") |} /\
   Extended.status (final (Extended.handleAnalyze offline extended_pasted))
     = ERROR) /\
  (Extended.Service.convertCurlToPython stringify_brackets offline
     (Extended.curlInput extended_analyzed)
     (Array_from (Extended.selectedFields extended_analyzed))
     (Extended.volatileInputs extended_analyzed)
     = Rejected {| message := Some (lit "Failed to fetch") |} /\
   Extended.status
     (final (Extended.handleGenerate stringify_brackets offline
               extended_analyzed))
     = ERROR).
Proof.
  refine (conj (conj (proj1 example_not_blank) (conj eq_refl _))
            (conj (conj eq_refl _)
               (conj (conj (proj2 example_not_blank) (conj eq_refl _))
                  (conj eq_refl _)))).
  - exact (proj1 (proj1 failures_end_in_error offline basic_pasted _
                    (proj1 example_not_blank) eq_refl)).
  - exact (proj1 (proj1 (proj2 failures_end_in_error) offline basic_analyzed
                    _ eq_refl)).
  - exact (proj1 (proj1 (proj2 (proj2 failures_end_in_error)) offline
                    extended_pasted _ (proj2 example_not_blank) eq_refl)).
  - exact (proj1 (proj2 (proj2 (proj2 failures_end_in_error))
                    stringify_brackets offline extended_analyzed _ eq_refl)).
Defined.

(** C7 as the specification words it fails for the basic variant: its
    contract has no [responseFields] property, the field is named
    [fields]. *)
Lemma basic_contract_names_fields :
  declares_responseFields
    (responseSchema
       (config
          (Basic.Service.analyzeCurlSchema_request (Basic.curlInput basic_pasted))))
  = false.
Proof. reflexivity. Qed.






Lemma success_view_may_throw_witness :
  (Basic.Service.convertCurlToPython replies_prose (Basic.curlInput basic_analyzed)
     (Array_from (Basic.selectedFields basic_analyzed)) = Resolved prose_mock /\
   JSON_parse_returns (mockResponse prose_mock) = false /\
   Basic.status (final (Basic.handleGenerate replies_prose basic_analyzed))
     = SUCCESS /\
   Basic.success_view
     (final (Basic.handleGenerate replies_prose basic_analyzed)) = Throws) /\
  (Extended.Service.convertCurlToPython stringify_brackets replies_prose
     (Extended.curlInput extended_analyzed)
     (Array_from (Extended.selectedFields extended_analyzed))
     (Extended.volatileInputs extended_analyzed) = Resolved prose_mock /\
   JSON_parse_returns (mockResponse prose_mock) = false /\
   Extended.status
     (final (Extended.handleGenerate stringify_brackets replies_prose
               extended_analyzed)) = SUCCESS /\
   Extended.success_view
     (final (Extended.handleGenerate stringify_brackets replies_prose
               extended_analyzed)) = Throws).
Proof.
  refine (conj (conj eq_refl (conj eq_refl _)) (conj eq_refl (conj eq_refl _))).
  - destruct (proj1 success_view_may_throw replies_prose basic_analyzed
                prose_mock eq_refl eq_refl) as (S & _ & _ & V).
    exact (conj S V).
  - destruct (proj1 (proj2 success_view_may_throw) stringify_brackets
                replies_prose extended_analyzed prose_mock eq_refl eq_refl)
      as (S & _ & _ & V).
    exact (conj S V).
Defined.

(** ** Further properties of the controllers and of the views *)

Lemma trimStart_head (s : jsstring) :
  trimStart s = [] \/ exists c r, trimStart s = c :: r /\ is_ws c = false.
Proof.
  induction s as [|c r IH]; simpl; [left; reflexivity|].
  destruct (is_ws c) eqn:E; [exact IH | right; exists c, r; auto].
Qed.

Lemma trimStart_snoc (l : jsstring) (c : N) :
  is_ws c = false -> exists l', trimStart (l ++ [c]) = l' ++ [c].
Proof.
  intros E; induction l as [|x l IH]; simpl.
  - rewrite E; exists []; reflexivity.
  - destruct (is_ws x); [exact IH | exists (x :: l); reflexivity].
Qed.

(** What [trim] returns is empty or has a character that is not white
    space at each end. *)
Lemma trim_ends (s : jsstring) :
  trim s = [] \/
  ((exists c rest, trim s = c :: rest /\ is_ws c = false) /\
   (exists init c, trim s = init ++ [c] /\ is_ws c = false)).
Proof.
  unfold trim, trimEnd.
  destruct (trimStart_head s) as [E | (c & r & E & W)];
    [rewrite E; left; reflexivity|].
  rewrite E; right; simpl rev.
  destruct (trimStart_snoc (rev r) c W) as (l' & L); rewrite L.
  split.
  - exists c, (rev l'); rewrite rev_app_distr; auto.
  - destruct (trimStart_head (rev r ++ [c])) as [Z | (d & u & Z & Wd)].
    + rewrite L in Z; destruct l'; discriminate.
    + rewrite <- L, Z; exists (rev u), d; auto.
Qed.

Lemma falsy_nil (s : jsstring) : falsy s = true <-> s = [].
Proof. destruct s; simpl; split; congruence. Qed.

Lemma basic_addCustomField_run (s : Basic.State) :
  ~ blank (Basic.customField s) ->
  Basic.addCustomField s =
  Basic.setCustomField []
    (Basic.toggleField (trim (Basic.customField s))
       (Basic.setAvailableFields
          (Basic.availableFields s ++ [trim (Basic.customField s)]) s)).
Proof.
  intros H; apply trim_not_falsy in H.
  unfold Basic.addCustomField; rewrite H; reflexivity.
Qed.

(** X1.  Submitting a custom field whose text is not blank appends the
    trimmed text to the available fields, at the end, and empties the
    input; the appended name is not empty and neither starts nor ends with
    white space.  The cURL text, the status, the result and the error are
    untouched. *)
Theorem custom_field_is_added_trimmed (s : Basic.State) :
  ~ blank (Basic.customField s) ->
  let added := trim (Basic.customField s) in
  let s' := Basic.addCustomField s in
  Basic.availableFields s' = Basic.availableFields s ++ [added] /\
  Basic.customField s' = [] /\
  (exists c rest, added = c :: rest /\ is_ws c = false) /\
  (exists init c, added = init ++ [c] /\ is_ws c = false) /\
  Basic.curlInput s' = Basic.curlInput s /\
  Basic.status s' = Basic.status s /\
  Basic.result s' = Basic.result s /\
  Basic.error s' = Basic.error s.
Proof.
  intros H; cbv zeta; rewrite (basic_addCustomField_run s H).
  assert (T : trim (Basic.customField s) <> [])
    by (intros E; apply H, trim_falsy, falsy_nil, E).
  destruct (trim_ends (Basic.customField s)) as [E | [A B]];
    [contradiction|].
  repeat split; assumption.
Qed.

(** X2.  Submitting a custom field whose name is already selected removes
    the name from the selection (the form toggles, it does not select), and
    leaves every other name as it was, while the name is appended to the
    available fields once more. *)
Theorem custom_field_already_selected_is_unselected (s : Basic.State) :
  ~ blank (Basic.customField s) ->
  member (trim (Basic.customField s)) (Basic.selectedFields s) ->
  let added := trim (Basic.customField s) in
  let s' := Basic.addCustomField s in
  ~ member added (Basic.selectedFields s') /\
  (forall x, x <> added ->
     (member x (Basic.selectedFields s') <->
      member x (Basic.selectedFields s))) /\
  Basic.availableFields s' = Basic.availableFields s ++ [added].
Proof.
  intros H M; cbv zeta; rewrite (basic_addCustomField_run s H).
  change (Basic.selectedFields
            (Basic.setCustomField []
               (Basic.toggleField (trim (Basic.customField s))
                  (Basic.setAvailableFields
                     (Basic.availableFields s ++ [trim (Basic.customField s)])
                     s))))
    with (toggled (Basic.selectedFields s) (trim (Basic.customField s))).
  destruct (toggled_member (Basic.selectedFields s)
              (trim (Basic.customField s))) as (Del & _ & _).
  split; [|split; [|reflexivity]].
  - intros X; apply (Del M) in X; destruct X as [_ X]; apply X; reflexivity.
  - intros x D; rewrite (Del M x); tauto.
Qed.

(** X3.  When the field panel is rendered, its Add button is disabled
    exactly when submitting the form would change nothing. *)
Theorem add_button_disabled_iff_noop (s : Basic.State) (v : Basic.View)
    (p : Basic.FieldPanel) :
  Basic.view s = Renders v ->
  Basic.fieldPanel v = Some p ->
  (Basic.addButtonDisabled p = true <-> Basic.addCustomField s = s).
Proof.
  unfold Basic.view; intros V P.
  destruct (Basic.success_view s); [discriminate|].
  injection V as <-; cbn in P.
  destruct (_ || _ || _); [|discriminate].
  injection P as <-; cbn.
  unfold Basic.addCustomField.
  destruct (falsy (trim (Basic.customField s))) eqn:E;
    split; try reflexivity; try discriminate.
  intros X; apply (f_equal Basic.availableFields) in X; cbn in X.
  apply (f_equal (@List.length _)) in X; rewrite length_app in X.
  simpl in X; lia.
Qed.

Lemma AppStatus_eqb_eq (a b : AppStatus) : AppStatus_eqb a b = true <-> a = b.
Proof. destruct a, b; simpl; split; congruence. Qed.

Lemma basic_success_view_hidden (s : Basic.State) :
  Basic.status s <> SUCCESS -> Basic.success_view s = Shows None.
Proof.
  intros H; unfold Basic.success_view.
  destruct (Basic.result s); [|reflexivity].
  destruct (AppStatus_eqb (Basic.status s) SUCCESS) eqn:E;
    [apply AppStatus_eqb_eq in E; contradiction | reflexivity].
Qed.

Lemma extended_success_view_hidden (s : Extended.State) :
  Extended.status s <> SUCCESS -> Extended.success_view s = Shows None.
Proof.
  intros H; unfold Extended.success_view.
  destruct (Extended.result s); [|reflexivity].
  destruct (AppStatus_eqb (Extended.status s) SUCCESS) eqn:E;
    [apply AppStatus_eqb_eq in E; contradiction | reflexivity].
Qed.

Lemma basic_view_renders (s : Basic.State) :
  Basic.status s <> SUCCESS -> exists v, Basic.view s = Renders v.
Proof.
  intros H; unfold Basic.view, Basic.success_view.
  destruct (Basic.result s); [|eexists; reflexivity].
  destruct (AppStatus_eqb (Basic.status s) SUCCESS) eqn:E;
    [apply AppStatus_eqb_eq in E; contradiction | eexists; reflexivity].
Qed.

Lemma extended_view_renders (s : Extended.State) :
  Extended.status s <> SUCCESS -> exists v, Extended.view s = Renders v.
Proof.
  intros H; unfold Extended.view, Extended.success_view.
  destruct (Extended.result s); [|eexists; reflexivity].
  destruct (AppStatus_eqb (Extended.status s) SUCCESS) eqn:E;
    [apply AppStatus_eqb_eq in E; contradiction | eexists; reflexivity].
Qed.

(** X4.  The Analyze button only looks at whether the text is empty, the
    handler at whether it is blank: the button is offered and yet the click
    does nothing exactly when the text is not empty but is white space only
    (and, in the basic variant, the status is [IDLE] or [ERROR]; in the
    extended one, anything but [ANALYZING]). *)
Theorem analyze_offered_but_noop :
  (forall (s : Basic.State) (v : Basic.View),
     Basic.view s = Renders v ->
     (Basic.offers v CtlAnalyze = true /\ Basic.handleAnalyze_enter s = None
      <->
      (Basic.status s = IDLE \/ Basic.status s = ERROR) /\
      Basic.curlInput s <> [] /\ blank (Basic.curlInput s))) /\
  (forall (s : Extended.State) (v : Extended.View),
     Extended.view s = Renders v ->
     (Extended.offers v CtlAnalyze = true /\
      Extended.handleAnalyze_enter s = None
      <->
      Extended.status s <> ANALYZING /\
      Extended.curlInput s <> [] /\ blank (Extended.curlInput s))).
Proof.
  split; intros s v V.
  - unfold Basic.view in V; destruct (Basic.success_view s); [discriminate|].
    injection V as <-; cbn.
    unfold Basic.handleAnalyze_enter, Basic.status_is.
    rewrite <- trim_falsy.
    destruct (falsy (trim (Basic.curlInput s)));
      destruct (Basic.curlInput s) as [|c r]; destruct (Basic.status s);
      cbn; intuition congruence.
  - unfold Extended.view in V;
      destruct (Extended.success_view s); [discriminate|].
    injection V as <-; cbn.
    unfold Extended.handleAnalyze_enter, Extended.status_is.
    rewrite <- trim_falsy.
    destruct (falsy (trim (Extended.curlInput s)));
      destruct (Extended.curlInput s) as [|c r];
      destruct (Extended.status s);
      cbn; intuition congruence.
Qed.

Lemma fold_Set_add_length (xs : list jsstring) (acc : JsSet) :
  (List.length (fold_left Set_add xs acc)
   <= List.length acc + List.length xs)%nat.
Proof.
  revert acc; induction xs as [|x xs IH]; intros acc; simpl; [lia|].
  specialize (IH (Set_add acc x)).
  assert (List.length (Set_add acc x) <= S (List.length acc))%nat.
  { unfold Set_add; destruct (Set_has acc x); [lia|].
    rewrite length_app; simpl; lia. }
  lia.
Qed.

Lemma fold_Set_add_distinct (xs : list jsstring) (acc : JsSet) :
  NoDup (acc ++ xs) -> fold_left Set_add xs acc = acc ++ xs.
Proof.
  revert acc; induction xs as [|x xs IH]; intros acc H; simpl.
  - rewrite app_nil_r; reflexivity.
  - assert (N : Set_has acc x = false).
    { destruct (Set_has acc x) eqn:E; [|reflexivity].
      apply Set_has_In in E; apply NoDup_remove_2 in H.
      exfalso; apply H, in_or_app; left; exact E. }
    unfold Set_add at 2; rewrite N.
    rewrite IH; rewrite <- app_assoc; [reflexivity | exact H].
Qed.

Lemma Set_of_preselection (fields : list jsstring) :
  let sel := Set_of (slice0 3 fields) in
  NoDup sel /\
  (List.length sel <= 3)%nat /\
  (List.length sel <= List.length fields)%nat /\
  (NoDup (slice0 3 fields) -> Array_from sel = slice0 3 fields).
Proof.
  cbv zeta; unfold Set_of, slice0, Array_from.
  pose proof (fold_Set_add_length (firstn 3 fields) Set_empty) as L.
  pose proof (firstn_le_length 3 fields) as L3.
  assert (L4 : (List.length (firstn 3 fields) <= List.length fields)%nat)
    by (rewrite length_firstn; lia).
  change (List.length Set_empty) with 0%nat in L.
  split; [apply (Set_of_NoDup (firstn 3 fields))|].
  split; [lia | split; [lia|]].
  intros H; apply (fold_Set_add_distinct _ []); exact H.
Qed.

(** X5.  After a resolved analysis the selection holds at most three
    names and no more than there are fields, each once; when the first three
    field names are distinct it is exactly those, in the order of the
    reply, which is the order [Array.from] hands to the prompt.  What was
    selected before plays no part.  Both variants. *)
Theorem preselection_is_first_three :
  (forall (fields : list jsstring) (s : Basic.State),
     let sel :=
       Basic.selectedFields (Basic.handleAnalyze_resume (Resolved fields) s) in
     NoDup sel /\
     (List.length sel <= 3)%nat /\
     (List.length sel <= List.length fields)%nat /\
     (NoDup (slice0 3 fields) -> Array_from sel = slice0 3 fields)) /\
  (forall (analysis : Extended.Service.AnalysisResult) (s : Extended.State),
     let fields := Extended.Service.responseFields analysis in
     let sel :=
       Extended.selectedFields
         (Extended.handleAnalyze_resume (Resolved analysis) s) in
     NoDup sel /\
     (List.length sel <= 3)%nat /\
     (List.length sel <= List.length fields)%nat /\
     (NoDup (slice0 3 fields) -> Array_from sel = slice0 3 fields)).
Proof.
  split.
  - intros fields s; exact (Set_of_preselection fields).
  - intros analysis s;
      exact (Set_of_preselection (Extended.Service.responseFields analysis)).
Qed.

Lemma Set_delete_length (sel : JsSet) (x : jsstring) :
  NoDup sel -> In x sel ->
  S (List.length (Set_delete sel x)) = List.length sel.
Proof.
  unfold Set_delete; induction sel as [|y sel IH]; intros N I; [destruct I|].
  apply NoDup_cons_iff in N as [Ny N]; simpl.
  destruct (jsstring_eqb x y) eqn:E; simpl.
  - apply jsstring_eqb_eq in E; subst y.
    f_equal; clear IH I.
    induction sel as [|z sel IH]; [reflexivity|]; simpl.
    apply NoDup_cons_iff in N as [_ N].
    destruct (jsstring_eqb x z) eqn:Z.
    + apply jsstring_eqb_eq in Z; subst z; exfalso; apply Ny; left; reflexivity.
    + simpl; f_equal; apply IH; [|exact N].
      intros H; apply Ny; right; exact H.
  - apply jsstring_eqb_neq in E.
    destruct I as [<- | I]; [congruence|].
    f_equal; apply IH; assumption.
Qed.

Lemma toggled_length (sel : JsSet) (field : jsstring) :
  NoDup sel ->
  List.length (toggled sel field) =
  if Set_has sel field then pred (List.length sel) else S (List.length sel).
Proof.
  intros N; unfold toggled; destruct (Set_has sel field) eqn:E.
  - apply Set_has_In in E.
    rewrite <- (Set_delete_length sel field N E); reflexivity.
  - unfold Set_add; rewrite E, length_app; simpl; lia.
Qed.

(** X6.  On a selection without repetition (every reachable one), a
    toggle changes the number of selected names, the one the panel
    displays, by exactly one: down when the field was selected, up when it
    was not; the selection stays without repetition.  Both variants. *)
Theorem toggle_changes_count_by_one :
  (forall (field : jsstring) (s : Basic.State),
     NoDup (Basic.selectedFields s) ->
     let sel' := Basic.selectedFields (Basic.toggleField field s) in
     NoDup sel' /\
     List.length sel' =
     if Set_has (Basic.selectedFields s) field
     then pred (List.length (Basic.selectedFields s))
     else S (List.length (Basic.selectedFields s))) /\
  (forall (field : jsstring) (s : Extended.State),
     NoDup (Extended.selectedFields s) ->
     let sel' := Extended.selectedFields (Extended.toggleField field s) in
     NoDup sel' /\
     List.length sel' =
     if Set_has (Extended.selectedFields s) field
     then pred (List.length (Extended.selectedFields s))
     else S (List.length (Extended.selectedFields s))).
Proof.
  split; intros field s N; cbv zeta.
  - rewrite basic_toggleField_selection.
    split; [apply toggled_NoDup, N | apply toggled_length, N].
  - rewrite extended_toggleField_selection.
    split; [apply toggled_NoDup, N | apply toggled_length, N].
Qed.

Lemma toggled_twice_moves_last (sel : JsSet) (field : jsstring) :
  member field sel ->
  toggled (toggled sel field) field = Set_delete sel field ++ [field].
Proof.
  intros M; unfold toggled at 2; rewrite M.
  unfold toggled, Set_add.
  destruct (Set_has (Set_delete sel field) field) eqn:E; [|reflexivity].
  apply Set_has_In, Set_delete_In in E; destruct E as [_ E]; congruence.
Qed.

(** X7.  Unselecting a selected field and selecting it again does not
    restore its place: the field ends up last in the order [Array.from]
    gives, the others keeping theirs, so it is listed last in the next
    prompt.  Both variants. *)
Theorem reselected_field_moves_last :
  (forall (field : jsstring) (s : Basic.State),
     member field (Basic.selectedFields s) ->
     Array_from
       (Basic.selectedFields
          (Basic.toggleField field (Basic.toggleField field s)))
     = Set_delete (Basic.selectedFields s) field ++ [field]) /\
  (forall (field : jsstring) (s : Extended.State),
     member field (Extended.selectedFields s) ->
     Array_from
       (Extended.selectedFields
          (Extended.toggleField field (Extended.toggleField field s)))
     = Set_delete (Extended.selectedFields s) field ++ [field]).
Proof.
  split; intros field s M.
  - rewrite !basic_toggleField_selection.
    apply toggled_twice_moves_last, M.
  - rewrite !extended_toggleField_selection.
    apply toggled_twice_moves_last, M.
Qed.


(** X9.  A generation never changes the cURL text, the available fields
    or the selection, whatever its outcome.  The result stored before it
    stays while the call is in flight and after a rejection; only a
    resolved call replaces it.  Both variants. *)
Theorem generation_keeps_inputs_and_stale_result :
  (forall (ai : Remote ConversionResponse) (s : Basic.State),
     let r := Basic.handleGenerate ai s in
     Basic.curlInput (final r) = Basic.curlInput s /\
     Basic.availableFields (final r) = Basic.availableFields s /\
     Basic.selectedFields (final r) = Basic.selectedFields s /\
     Basic.result (during r) = Basic.result s /\
     (forall err,
        Basic.Service.convertCurlToPython ai (Basic.curlInput s)
          (Array_from (Basic.selectedFields s)) = Rejected err ->
        Basic.result (final r) = Basic.result s)) /\
  (forall (JSON_stringify : list Extended.Service.VolatileInput -> jsstring)
          (ai : Remote ConversionResponse) (s : Extended.State),
     let r := Extended.handleGenerate JSON_stringify ai s in
     Extended.curlInput (final r) = Extended.curlInput s /\
     Extended.availableFields (final r) = Extended.availableFields s /\
     Extended.volatileInputs (final r) = Extended.volatileInputs s /\
     Extended.selectedFields (final r) = Extended.selectedFields s /\
     Extended.result (during r) = Extended.result s /\
     (forall err,
        Extended.Service.convertCurlToPython JSON_stringify ai
          (Extended.curlInput s) (Array_from (Extended.selectedFields s))
          (Extended.volatileInputs s) = Rejected err ->
        Extended.result (final r) = Extended.result s)).
Proof.
  split.
  - intros ai s; cbv zeta; unfold Basic.handleGenerate; cbn [during final].
    destruct (Basic.Service.convertCurlToPython ai _ _);
      repeat match goal with |- _ /\ _ => split end; try reflexivity;
      intros x E; try discriminate E; reflexivity.
  - intros js ai s; cbv zeta; unfold Extended.handleGenerate;
      cbn [during final].
    destruct (Extended.Service.convertCurlToPython js ai _ _ _);
      repeat match goal with |- _ /\ _ => split end; try reflexivity;
      intros x E; try discriminate E; reflexivity.
Qed.

Ltac coherent_after_status_change :=
  cbn;
  repeat match goal with |- _ /\ _ => split end;
  intros X; try discriminate X;
  first [ reflexivity
        | split; reflexivity
        | eexists; reflexivity
        | apply holds_message_or; discriminate ].

Lemma basic_step_coherent (s s' : Basic.State) :
  Basic.step s s' -> basic_coherent s -> basic_coherent s'.
Proof.
  unfold basic_coherent.
  intros St H; destruct St as
    [v s | v s | s s1 E | [fields|err] s | s | [d|err] s | s | s
     | field s Hf | s];
    try exact H; try coherent_after_status_change.
  - unfold Basic.handleAnalyze_enter in E.
    destruct (falsy (trim (Basic.curlInput s))); [discriminate|].
    injection E as <-; coherent_after_status_change.
  - unfold Basic.addCustomField.
    destruct (falsy (trim (Basic.customField s))); exact H.
Qed.


Lemma basic_reachable_coherent (s : Basic.State) :
  Basic.reachable s -> basic_coherent s.
Proof.
  intros R; induction R as [|s s' _ IH St].
  - unfold basic_coherent; coherent_after_status_change.
  - exact (basic_step_coherent s s' St IH).
Qed.



(** X11.  In every reachable [ERROR] state of the basic variant the view
    renders, its banner shows the stored message, which is not empty, the
    text area is enabled and the Analyze button is rendered, disabled only
    when the text is empty: the user can correct the command and retry. *)
Theorem basic_error_is_shown (s : Basic.State) :
  Basic.reachable s ->
  Basic.status s = ERROR ->
  exists v m b,
    Basic.view s = Renders v /\
    Basic.error s = Some m /\ m <> [] /\
    Basic.errorBanner v = Some m /\
    Basic.offers v CtlTextarea = true /\
    Basic.analyzeButton v = Some b /\
    disabled b = falsy (Basic.curlInput s).
Proof.
  intros R E; destruct (basic_reachable_coherent s R) as (_ & I & _).
  destruct (I E) as (m & Em & Nm).
  unfold Basic.view; rewrite basic_success_view_hidden by congruence.
  eexists _, m, _; split; [reflexivity|].
  unfold Basic.status_is; cbn; rewrite E, Em; cbn.
  repeat match goal with |- _ /\ _ => split end;
    try reflexivity; try assumption.
  destruct m; [contradiction | reflexivity].
Qed.

(** X12.  The view of the extended variant never shows a failure: it does
    not depend on the stored error, it renders an [ERROR] state as it
    renders the same state with status [IDLE], so the screen after a
    rejected call is the idle screen; and no control of it starts
    [handleReset]. *)
Theorem extended_failure_is_invisible :
  (forall (e : option jsstring) (s : Extended.State),
     Extended.view (Extended.setError e s) = Extended.view s) /\
  (forall s : Extended.State,
     Extended.view (Extended.setStatus ERROR s)
     = Extended.view (Extended.setStatus IDLE s)) /\
  (forall (err : JsError) (s : Extended.State),
     Extended.view (Extended.handleGenerate_resume (Rejected err) s)
     = Extended.view (Extended.setStatus IDLE s) /\
     Extended.view (Extended.handleAnalyze_resume (Rejected err) s)
     = Extended.view (Extended.setStatus IDLE s)) /\
  (forall (s : Extended.State) (v : Extended.View),
     Extended.view s = Renders v ->
     Extended.offers v CtlStartOver = false).
Proof.
  repeat match goal with |- _ /\ _ => split end.
  - intros e s; reflexivity.
  - intros s; unfold Extended.view, Extended.success_view; cbn.
    destruct (Extended.result s); reflexivity.
  - intros err s; unfold Extended.view, Extended.success_view; cbn.
    destruct (Extended.result s); split; reflexivity.
  - reflexivity.
Qed.

(** X13.  The output column shows at most one of its three blocks (the
    placeholder, the spinner of a running generation, the result), and it
    shows none of them exactly when a result is stored while the status is
    neither [GENERATING] nor [SUCCESS] - the state a rejected second
    generation leaves.  Both variants. *)
Theorem output_column_blocks :
  (forall (s : Basic.State) (v : Basic.View),
     Basic.view s = Renders v ->
     (Basic.placeholder v <> None ->
      Basic.generatingSpinner v = false /\ Basic.successPanel v = None) /\
     (Basic.generatingSpinner v = true -> Basic.successPanel v = None) /\
     (Basic.placeholder v = None /\ Basic.generatingSpinner v = false /\
      Basic.successPanel v = None
      <->
      Basic.result s <> None /\ Basic.status s <> GENERATING /\
      Basic.status s <> SUCCESS)) /\
  (forall (s : Extended.State) (v : Extended.View),
     Extended.view s = Renders v ->
     (Extended.placeholder v = true ->
      Extended.generatingSpinner v = false /\
      Extended.successPanel v = None) /\
     (Extended.generatingSpinner v = true ->
      Extended.successPanel v = None) /\
     (Extended.placeholder v = false /\
      Extended.generatingSpinner v = false /\
      Extended.successPanel v = None
      <->
      Extended.result s <> None /\ Extended.status s <> GENERATING /\
      Extended.status s <> SUCCESS)).
Proof.
  split; intros s v V.
  - unfold Basic.view, Basic.success_view in V.
    unfold Basic.status_is in V.
    destruct (Basic.result s) as [r|]; destruct (Basic.status s);
      cbn in V; try destruct (JSON_parse_returns (mockResponse r));
      try discriminate V; injection V as <-; cbn;
      intuition congruence.
  - unfold Extended.view, Extended.success_view in V.
    unfold Extended.status_is in V.
    destruct (Extended.result s) as [r|]; destruct (Extended.status s);
      cbn in V; try destruct (JSON_parse_returns (mockResponse r));
      try discriminate V; injection V as <-; cbn;
      intuition congruence.
Qed.

Lemma basic_analyzing_offers (s : Basic.State) (v : Basic.View)
    (c : Control) :
  Basic.view s = Renders v -> Basic.status s = ANALYZING ->
  c <> CtlCopy -> Basic.offers v c = false.
Proof.
  intros V E C; unfold Basic.view in V.
  rewrite basic_success_view_hidden in V by congruence.
  injection V as <-; unfold Basic.status_is; rewrite E.
  destruct c; try reflexivity; contradiction.
Qed.

(** X14.  While the basic variant shows an analysis as running, no
    control that changes the state is offered (only the copy button can be,
    when a result is stored), so the state then changes only when a pending
    call settles. *)
Theorem basic_analyzing_is_inert (s : Basic.State) :
  Basic.status s = ANALYZING ->
  (forall v c, Basic.view s = Renders v -> c <> CtlCopy ->
               Basic.offers v c = false) /\
  (forall s', Basic.ui_step s s' ->
     (exists settled, s' = Basic.handleAnalyze_resume settled s) \/
     (exists settled, s' = Basic.handleGenerate_resume settled s)).
Proof.
  intros E; split.
  - intros v c V C; exact (basic_analyzing_offers s v c V E C).
  - intros s' St; destruct St as
      [s v V O | s v V O | s v typed V O | s v s1 V O _ | s v field V O
       | s v typed V O | s v V O | s v V O | settled s | settled s];
      try (rewrite (basic_analyzing_offers s v _ V E) in O;
           [discriminate | discriminate]).
    + left; exists settled; reflexivity.
    + right; exists settled; reflexivity.
Qed.

Lemma basic_chip_offered (s : Basic.State) (v : Basic.View)
    (field : jsstring) :
  Basic.view s = Renders v ->
  Basic.offers v (CtlChip field) = true ->
  In field (Basic.availableFields s) /\
  (Basic.status s = AWAITING_SELECTION \/ Basic.status s = GENERATING \/
   Basic.status s = SUCCESS).
Proof.
  intros V O; unfold Basic.view in V.
  destruct (Basic.success_view s); [discriminate|]; injection V as <-.
  cbn in O; unfold Basic.status_is in O.
  destruct (Basic.status s); cbn in O; try discriminate O;
    (split; [|tauto]);
    apply existsb_exists in O as (c & I & Q);
    apply in_map_iff in I as (f & <- & I);
    apply jsstring_eqb_eq in Q; cbn in Q; subst; exact I.
Qed.

Lemma basic_ui_step_step (s s' : Basic.State) :
  Basic.ui_step s s' -> Basic.step s s'.
Proof.
  intros St; destruct St as
    [s v V O | s v V O | s v typed V O | s v s1 V O E | s v field V O
     | s v typed V O | s v V O | s v V O | settled s | settled s];
    try (constructor; fail).
  - apply Basic.step_analyze_enter; exact E.
  - apply Basic.step_chip; exact (proj1 (basic_chip_offered s v field V O)).
Qed.

(** X15.  A chip is offered only for a name of the available fields and
    only while the status is [AWAITING_SELECTION], [GENERATING] or
    [SUCCESS]; hence every transition the rendered controls of the basic
    variant allow is a transition of the controller's step relation, and
    every state reached through the controls is reachable in it. *)
Theorem basic_controls_refine_steps :
  (forall (s : Basic.State) (v : Basic.View) (field : jsstring),
     Basic.view s = Renders v ->
     Basic.offers v (CtlChip field) = true ->
     In field (Basic.availableFields s) /\
     (Basic.status s = AWAITING_SELECTION \/ Basic.status s = GENERATING \/
      Basic.status s = SUCCESS)) /\
  (forall s s', Basic.ui_step s s' -> Basic.step s s') /\
  (forall s, Basic.ui_reachable s -> Basic.reachable s).
Proof.
  split; [exact basic_chip_offered | split; [exact basic_ui_step_step|]].
  intros s R; induction R as [|s s' _ IH St]; [constructor|].
  exact (Basic.reachable_step s s' IH (basic_ui_step_step s s' St)).
Qed.

Lemma basic_offer_status (s : Basic.State) (v : Basic.View) (c : Control) :
  Basic.view s = Renders v -> Basic.offers v c = true ->
  Basic.status s = IDLE ->
  c = CtlExample \/ c = CtlTextarea \/ c = CtlAnalyze \/ c = CtlCopy.
Proof.
  intros V O E; unfold Basic.view in V.
  rewrite basic_success_view_hidden in V by congruence.
  injection V as <-; unfold Basic.status_is in O; rewrite E in O.
  destruct c; cbn in O; try discriminate O; tauto.
Qed.

(** X16.  In the basic variant, as driven through its controls, [IDLE]
    means a clean slate: whenever the status is [IDLE] there are no
    available fields, no selection, no result and no error (the example
    button exists only in [IDLE], and Start Over clears everything). *)
Theorem basic_idle_is_clean (s : Basic.State) :
  Basic.ui_reachable s -> Basic.status s = IDLE -> basic_clean s.
Proof.
  intros R; induction R as [|s s' _ IH St];
    [intros _; repeat split|].
  destruct St as
    [s v V O | s v V O | s v typed V O | s v s1 V O E | s v field V O
     | s v typed V O | s v V O | s v V O | [fields|err] s | [d|err] s];
    cbn; intros X; try discriminate X.
  - (* the example button: only in IDLE *)
    assert (E : Basic.status s = IDLE).
    { unfold Basic.view in V.
      destruct (Basic.success_view s); [discriminate|]; injection V as <-.
      cbn in O; apply AppStatus_eqb_eq in O; exact O. }
    destruct (IH E) as (A & B & C & _); repeat split; assumption.
  - repeat split.
  - exact (IH X).
  - unfold Basic.handleAnalyze_enter in E.
    destruct (falsy (trim (Basic.curlInput s))); [discriminate|].
    injection E as <-; discriminate X.
  - destruct (basic_offer_status s v _ V O X) as [C | [C | [C | C]]];
      discriminate C.
  - destruct (basic_offer_status s v _ V O X) as [C | [C | [C | C]]];
      discriminate C.
  - assert (X' : Basic.status s = IDLE).
    { unfold Basic.addCustomField in X.
      destruct (falsy (trim (Basic.customField s))); exact X. }
    destruct (basic_offer_status s v _ V O X') as [C | [C | [C | C]]];
      discriminate C.
Qed.

Lemma embedding_injective (pre post a b : jsstring) :
  pre ++ a ++ post = pre ++ b ++ post -> a = b.
Proof.
  intros H; apply app_inv_head in H; apply app_inv_tail in H; exact H.
Qed.

(** X17.  The analysis prompt is the cURL text, character for character,
    between a fixed opening and a fixed closing: nothing is escaped, cut or
    checked, so two different commands never give the same prompt.  Both
    variants. *)
Theorem analysis_prompt_embeds_command :
  (exists pre post,
     (forall c, contents (Basic.Service.analyzeCurlSchema_request c)
                = pre ++ c ++ post) /\
     pre <> [] /\ post <> []) /\
  (exists pre post,
     (forall c, contents (Extended.Service.analyzeCurlSchema_request c)
                = pre ++ c ++ post) /\
     pre <> [] /\ post <> []) /\
  (forall a b,
     contents (Basic.Service.analyzeCurlSchema_request a)
     = contents (Basic.Service.analyzeCurlSchema_request b) -> a = b) /\
  (forall a b,
     contents (Extended.Service.analyzeCurlSchema_request a)
     = contents (Extended.Service.analyzeCurlSchema_request b) -> a = b).
Proof.
  repeat match goal with |- _ /\ _ => split end.
  - cbn [contents Basic.Service.analyzeCurlSchema_request];
      unfold Basic.Service.analyzeCurlSchema_prompt.
    eexists _, _; split; [intros c; reflexivity | split; discriminate].
  - cbn [contents Extended.Service.analyzeCurlSchema_request];
      unfold Extended.Service.analyzeCurlSchema_prompt.
    eexists _, _; split; [intros c; reflexivity | split; discriminate].
  - intros a b; exact (embedding_injective _ _ a b).
  - intros a b; exact (embedding_injective _ _ a b).
Qed.

(** X18.  When the parsed reply of the basic analysis has no [fields] key,
    or an empty list, the run ends with the field panel rendered with no
    chip, its "no fields" hint, a count of zero, the Generate button
    offered and the placeholder inviting to select fields. *)
Theorem basic_nothing_found_panel (ai : Remote Basic.Service.AnalyzeJson)
    (s : Basic.State) (reply : Basic.Service.AnalyzeJson) :
  ~ blank (Basic.curlInput s) ->
  ai (Basic.Service.analyzeCurlSchema_request (Basic.curlInput s))
    = TextParses reply ->
  Basic.Service.fields reply = None \/ Basic.Service.fields reply = Some [] ->
  exists v p,
    Basic.view (final (Basic.handleAnalyze ai s)) = Renders v /\
    Basic.fieldPanel v = Some p /\
    Basic.chips p = [] /\
    Basic.noFieldsHint p = true /\
    Basic.selectedCount p = 0%nat /\
    Basic.offers v CtlGenerate = true /\
    Basic.placeholder v
      = Some (Basic.Hint (lit "Select fields on the left to generate code.")).
Proof.
  intros H R F; rewrite (basic_analyze_run ai s H); cbn [final].
  unfold Basic.Service.analyzeCurlSchema; rewrite R.
  assert (E : match Basic.Service.fields reply with
              | Some fs => fs
              | None => []
              end = []) by (destruct F as [-> | ->]; reflexivity).
  rewrite E; eexists _, _; repeat split.
Qed.

(** X19.  Start Over does not cancel a generation in flight: the button is
    offered while the status is [GENERATING], and when the call then
    resolves the controller goes to [SUCCESS] with the result, although
    reset has emptied the fields and the selection; when it is rejected the
    controller goes to [ERROR]. *)
Theorem basic_reset_does_not_cancel_generation (s : Basic.State) :
  Basic.status s = GENERATING ->
  (exists v, Basic.view s = Renders v /\
             Basic.offers v CtlStartOver = true) /\
  (forall d,
     let s' := Basic.handleGenerate_resume (Resolved d) (Basic.handleReset s) in
     Basic.status s' = SUCCESS /\ Basic.result s' = Some d /\
     Basic.availableFields s' = [] /\ Basic.selectedFields s' = Set_empty) /\
  (forall err,
     let s' :=
       Basic.handleGenerate_resume (Rejected err) (Basic.handleReset s) in
     Basic.status s' = ERROR /\ holds_message (Basic.error s') /\
     Basic.availableFields s' = []).
Proof.
  intros E; split; [|split].
  - unfold Basic.view; rewrite basic_success_view_hidden by congruence.
    eexists; split; [reflexivity|].
    cbn; unfold Basic.status_is; rewrite E; reflexivity.
  - intros d; cbv zeta; repeat split.
  - intros err; cbv zeta; repeat split.
    apply holds_message_or; discriminate.
Qed.

(** X20.  The extended variant renders its field panel, chips and
    Generate button included, only when the status is [AWAITING_SELECTION]
    or [SUCCESS]; so its Generate button is never rendered disabled, and
    while a generation is in flight neither chips nor Generate are there,
    whereas Analyze stays offered whenever the text is not empty. *)
Theorem extended_panel_only_when_selectable (s : Extended.State)
    (v : Extended.View) :
  Extended.view s = Renders v ->
  (forall p, Extended.fieldPanel v = Some p ->
     (Extended.status s = AWAITING_SELECTION \/ Extended.status s = SUCCESS) /\
     disabled (Extended.generateButton p) = false /\
     map chipField (Extended.chips p) = Extended.availableFields s) /\
  (Extended.status s = GENERATING ->
   Extended.fieldPanel v = None /\
   Extended.offers v CtlGenerate = false /\
   (forall field, Extended.offers v (CtlChip field) = false) /\
   Extended.offers v CtlAnalyze = negb (falsy (Extended.curlInput s))).
Proof.
  intros V; unfold Extended.view in V.
  destruct (Extended.success_view s); [discriminate|]; injection V as <-.
  unfold Extended.status_is; split.
  - intros p P; cbn in P.
    destruct (Extended.status s); cbn in P; try discriminate P;
      injection P as <-; cbn;
      (split; [tauto | split; [reflexivity|]]);
      rewrite map_map; cbn; apply map_id.
  - intros E; rewrite E; cbn; rewrite orb_false_r; repeat split.
Qed.

(** ** Sample runs of the further properties *)

Lemma basic_custom_not_blank :
  ~ blank (Basic.customField basic_custom) /\
  ~ blank (Basic.customField basic_custom_again).
Proof. split; unfold blank; vm_compute; discriminate. Defined.

Lemma custom_field_is_added_trimmed_witness :
  ~ blank (Basic.customField basic_custom) /\
  Basic.availableFields (Basic.addCustomField basic_custom)
  = Basic.availableFields basic_custom ++ [lit "data.items"].
Proof.
  refine (conj (proj1 basic_custom_not_blank) _).
  exact (proj1 (custom_field_is_added_trimmed basic_custom
                  (proj1 basic_custom_not_blank))).
Defined.

Lemma custom_field_already_selected_is_unselected_witness :
  ~ blank (Basic.customField basic_custom_again) /\
  member (lit "id") (Basic.selectedFields basic_custom_again) /\
  ~ member (lit "id")
      (Basic.selectedFields (Basic.addCustomField basic_custom_again)).
Proof.
  refine (conj (proj2 basic_custom_not_blank) (conj eq_refl _)).
  exact (proj1 (custom_field_already_selected_is_unselected
                  basic_custom_again (proj2 basic_custom_not_blank) eq_refl)).
Defined.

Lemma add_button_disabled_iff_noop_witness :
  exists v p,
    Basic.view basic_analyzed = Renders v /\
    Basic.fieldPanel v = Some p /\
    (Basic.addButtonDisabled p = true <->
     Basic.addCustomField basic_analyzed = basic_analyzed).
Proof.
  eexists _, _.
  refine (conj eq_refl (conj eq_refl _)).
  exact (add_button_disabled_iff_noop basic_analyzed _ _ eq_refl eq_refl).
Defined.

Lemma analyze_offered_but_noop_witness :
  (exists v,
     Basic.view basic_spaces = Renders v /\
     Basic.curlInput basic_spaces <> [] /\
     blank (Basic.curlInput basic_spaces) /\
     Basic.offers v CtlAnalyze = true /\
     Basic.handleAnalyze_enter basic_spaces = None) /\
  (exists v,
     Extended.view extended_spaces = Renders v /\
     Extended.curlInput extended_spaces <> [] /\
     blank (Extended.curlInput extended_spaces) /\
     Extended.offers v CtlAnalyze = true /\
     Extended.handleAnalyze_enter extended_spaces = None).
Proof.
  assert (N : blank_text <> []) by discriminate.
  split; eexists.
  - refine (conj eq_refl (conj N (conj eq_refl _))).
    exact (proj2 (proj1 analyze_offered_but_noop basic_spaces _ eq_refl)
             (conj (or_introl eq_refl) (conj N eq_refl))).
  - refine (conj eq_refl (conj N (conj eq_refl _))).
    assert (S : Extended.status extended_spaces <> ANALYZING)
      by discriminate.
    exact (proj2 (proj2 analyze_offered_but_noop extended_spaces _ eq_refl)
             (conj S (conj N eq_refl))).
Defined.

Lemma profile_first_three_distinct : NoDup (slice0 3 profile_fields).
Proof.
  repeat constructor; simpl; intuition discriminate.
Defined.

Lemma preselection_is_first_three_witness :
  NoDup (slice0 3 profile_fields) /\
  Array_from
    (Basic.selectedFields
       (Basic.handleAnalyze_resume (Resolved profile_fields) basic_pasted))
  = [lit "login"; lit "id"; lit "name"].
Proof.
  refine (conj profile_first_three_distinct _).
  exact (proj2 (proj2 (proj2 (proj1 preselection_is_first_three
                                profile_fields basic_pasted)))
           profile_first_three_distinct).
Defined.

Lemma toggle_changes_count_by_one_witness :
  NoDup (Basic.selectedFields basic_analyzed) /\
  List.length
    (Basic.selectedFields (Basic.toggleField (lit "id") basic_analyzed))
  = 2%nat /\
  NoDup (Extended.selectedFields extended_analyzed) /\
  List.length
    (Extended.selectedFields
       (Extended.toggleField (lit "company") extended_analyzed))
  = 4%nat.
Proof.
  refine (conj profile_first_three_distinct
            (conj _ (conj profile_first_three_distinct _))).
  - exact (proj2 (proj1 toggle_changes_count_by_one (lit "id") basic_analyzed
                    profile_first_three_distinct)).
  - exact (proj2 (proj2 toggle_changes_count_by_one (lit "company")
                    extended_analyzed profile_first_three_distinct)).
Defined.

Lemma reselected_field_moves_last_witness :
  member (lit "login") (Basic.selectedFields basic_analyzed) /\
  Array_from
    (Basic.selectedFields
       (Basic.toggleField (lit "login")
          (Basic.toggleField (lit "login") basic_analyzed)))
  = [lit "id"; lit "name"; lit "login"] /\
  member (lit "login") (Extended.selectedFields extended_analyzed) /\
  Array_from
    (Extended.selectedFields
       (Extended.toggleField (lit "login")
          (Extended.toggleField (lit "login") extended_analyzed)))
  = [lit "id"; lit "name"; lit "login"].
Proof.
  refine (conj eq_refl (conj _ (conj eq_refl _))).
  - exact (proj1 reselected_field_moves_last (lit "login") basic_analyzed
             eq_refl).
  - exact (proj2 reselected_field_moves_last (lit "login") extended_analyzed
             eq_refl).
Defined.



Lemma generation_keeps_inputs_and_stale_result_witness :
  (Basic.Service.convertCurlToPython offline (Basic.curlInput basic_generated)
     (Array_from (Basic.selectedFields basic_generated))
   = Rejected {| message := Some (lit "Failed to fetch") |} /\
   Basic.result basic_regeneration_failed = Basic.result basic_generated) /\
  (Extended.Service.convertCurlToPython stringify_brackets offline
     (Extended.curlInput extended_generated)
     (Array_from (Extended.selectedFields extended_generated))
     (Extended.volatileInputs extended_generated)
   = Rejected {| message := Some (lit "Failed to fetch") |} /\
   Extended.result
     (final (Extended.handleGenerate stringify_brackets offline
               extended_generated))
   = Extended.result extended_generated).
Proof.
  refine (conj (conj eq_refl _) (conj eq_refl _)).
  - exact (proj2 (proj2 (proj2 (proj2
             (proj1 generation_keeps_inputs_and_stale_result offline
                basic_generated)))) _ eq_refl).
  - exact (proj2 (proj2 (proj2 (proj2 (proj2
             (proj2 generation_keeps_inputs_and_stale_result
                stringify_brackets offline extended_generated))))) _ eq_refl).
Defined.

Lemma basic_offline_reachable : Basic.reachable basic_offline.
Proof.
  apply (Basic.reachable_step basic_analyzing).
  - apply (Basic.reachable_step basic_pasted).
    + apply (Basic.reachable_step Basic.initial);
        [apply Basic.reachable_initial | apply Basic.step_example].
    + apply Basic.step_analyze_enter; reflexivity.
  - exact (Basic.step_analyze_settle
             (Rejected {| message := Some (lit "Failed to fetch") |}) _).
Defined.


Lemma basic_error_is_shown_witness :
  Basic.reachable basic_offline /\
  Basic.status basic_offline = ERROR /\
  exists v m b,
    Basic.view basic_offline = Renders v /\
    Basic.error basic_offline = Some m /\ m <> [] /\
    Basic.errorBanner v = Some m /\
    Basic.offers v CtlTextarea = true /\
    Basic.analyzeButton v = Some b /\
    disabled b = falsy (Basic.curlInput basic_offline).
Proof.
  refine (conj basic_offline_reachable (conj eq_refl _)).
  exact (basic_error_is_shown basic_offline basic_offline_reachable eq_refl).
Defined.

Lemma extended_failure_is_invisible_witness :
  exists v,
    Extended.view extended_pasted = Renders v /\
    Extended.offers v CtlStartOver = false.
Proof.
  eexists; refine (conj eq_refl _).
  exact (proj2 (proj2 (proj2 extended_failure_is_invisible))
           extended_pasted _ eq_refl).
Defined.

Lemma output_column_blocks_witness :
  (exists v,
     Basic.view basic_regeneration_failed = Renders v /\
     Basic.result basic_regeneration_failed <> None /\
     Basic.status basic_regeneration_failed <> GENERATING /\
     Basic.status basic_regeneration_failed <> SUCCESS /\
     Basic.placeholder v = None /\ Basic.generatingSpinner v = false /\
     Basic.successPanel v = None) /\
  (exists v,
     Extended.view (Extended.handleExample extended_generated) = Renders v /\
     Extended.result (Extended.handleExample extended_generated) <> None /\
     Extended.status (Extended.handleExample extended_generated)
       <> GENERATING /\
     Extended.status (Extended.handleExample extended_generated)
       <> SUCCESS /\
     Extended.placeholder v = false /\
     Extended.generatingSpinner v = false /\
     Extended.successPanel v = None).
Proof.
  split; eexists.
  - assert (R : Basic.result basic_regeneration_failed <> None)
      by discriminate.
    assert (G : Basic.status basic_regeneration_failed <> GENERATING)
      by discriminate.
    assert (S : Basic.status basic_regeneration_failed <> SUCCESS)
      by discriminate.
    refine (conj eq_refl (conj R (conj G (conj S _)))).
    exact (proj2 (proj2 (proj2 (proj1 output_column_blocks
                                  basic_regeneration_failed _ eq_refl)))
             (conj R (conj G S))).
  - assert (R : Extended.result (Extended.handleExample extended_generated)
                <> None) by discriminate.
    assert (G : Extended.status (Extended.handleExample extended_generated)
                <> GENERATING) by discriminate.
    assert (S : Extended.status (Extended.handleExample extended_generated)
                <> SUCCESS) by discriminate.
    refine (conj eq_refl (conj R (conj G (conj S _)))).
    exact (proj2 (proj2 (proj2 (proj2 output_column_blocks
                                  (Extended.handleExample extended_generated)
                                  _ eq_refl)))
             (conj R (conj G S))).
Defined.

Lemma basic_analyzing_is_inert_witness :
  Basic.status basic_analyzing = ANALYZING /\
  exists v,
    Basic.view basic_analyzing = Renders v /\
    Basic.offers v CtlStartOver = false /\
    Basic.offers v CtlAnalyze = false.
Proof.
  refine (conj eq_refl _); eexists.
  refine (conj eq_refl (conj _ _)).
  - refine (proj1 (basic_analyzing_is_inert basic_analyzing eq_refl)
              _ CtlStartOver eq_refl _); discriminate.
  - refine (proj1 (basic_analyzing_is_inert basic_analyzing eq_refl)
              _ CtlAnalyze eq_refl _); discriminate.
Defined.

Lemma basic_controls_refine_steps_witness :
  exists v,
    Basic.view basic_analyzed = Renders v /\
    Basic.offers v (CtlChip (lit "company")) = true /\
    In (lit "company") (Basic.availableFields basic_analyzed) /\
    Basic.step basic_analyzed (Basic.toggleField (lit "company") basic_analyzed).
Proof.
  eexists; refine (conj eq_refl (conj eq_refl (conj _ _))).
  - exact (proj1 (proj1 basic_controls_refine_steps basic_analyzed _
                    (lit "company") eq_refl eq_refl)).
  - exact (proj1 (proj2 basic_controls_refine_steps) _ _
             (Basic.ui_chip basic_analyzed _ (lit "company") eq_refl eq_refl)).
Defined.

Lemma basic_start_over_ui_reachable :
  Basic.ui_reachable (Basic.handleReset basic_analyzed).
Proof.
  apply (Basic.ui_reachable_step basic_analyzed).
  - apply (Basic.ui_reachable_step basic_analyzing).
    + apply (Basic.ui_reachable_step basic_pasted).
      * apply (Basic.ui_reachable_step Basic.initial);
          [apply Basic.ui_reachable_initial|].
        eapply Basic.ui_example; reflexivity.
      * eapply Basic.ui_analyze; reflexivity.
    + exact (Basic.ui_analysis_settles (Resolved profile_fields) _).
  - eapply Basic.ui_start_over; reflexivity.
Defined.

Lemma basic_idle_is_clean_witness :
  Basic.ui_reachable (Basic.handleReset basic_analyzed) /\
  Basic.status (Basic.handleReset basic_analyzed) = IDLE /\
  basic_clean (Basic.handleReset basic_analyzed).
Proof.
  refine (conj basic_start_over_ui_reachable (conj eq_refl _)).
  exact (basic_idle_is_clean _ basic_start_over_ui_reachable eq_refl).
Defined.

Lemma analysis_prompt_embeds_command_witness :
  contents (Basic.Service.analyzeCurlSchema_request (lit "curl a"))
  = contents (Basic.Service.analyzeCurlSchema_request (lit "curl a")) /\
  lit "curl a" = lit "curl a".
Proof.
  refine (conj eq_refl _).
  exact (proj1 (proj2 (proj2 analysis_prompt_embeds_command)) _ _ eq_refl).
Defined.

Lemma basic_nothing_found_panel_witness :
  ~ blank (Basic.curlInput basic_pasted) /\
  exists v p,
    Basic.view basic_none_found = Renders v /\
    Basic.fieldPanel v = Some p /\
    Basic.chips p = [] /\
    Basic.noFieldsHint p = true /\
    Basic.selectedCount p = 0%nat /\
    Basic.offers v CtlGenerate = true /\
    Basic.placeholder v
      = Some (Basic.Hint (lit "Select fields on the left to generate code.")).
Proof.
  refine (conj (proj1 example_not_blank) _).
  exact (basic_nothing_found_panel finds_nothing basic_pasted
           {| Basic.Service.fields := Some [] |}
           (proj1 example_not_blank) eq_refl (or_intror eq_refl)).
Defined.

Lemma basic_reset_does_not_cancel_generation_witness :
  Basic.status basic_generating = GENERATING /\
  exists v,
    Basic.view basic_generating = Renders v /\
    Basic.offers v CtlStartOver = true.
Proof.
  refine (conj eq_refl _).
  exact (proj1 (basic_reset_does_not_cancel_generation basic_generating
                  eq_refl)).
Defined.

Lemma extended_panel_only_when_selectable_witness :
  (exists v p,
     Extended.view extended_analyzed = Renders v /\
     Extended.fieldPanel v = Some p /\
     disabled (Extended.generateButton p) = false) /\
  (exists v,
     Extended.view extended_generating = Renders v /\
     Extended.status extended_generating = GENERATING /\
     Extended.fieldPanel v = None).
Proof.
  split.
  - eexists _, _; refine (conj eq_refl (conj eq_refl _)).
    exact (proj1 (proj2 (proj1 (extended_panel_only_when_selectable
                                  extended_analyzed _ eq_refl) _ eq_refl))).
  - eexists; refine (conj eq_refl (conj eq_refl _)).
    exact (proj1 (proj2 (extended_panel_only_when_selectable
                           extended_generating _ eq_refl) eq_refl)).
Defined.
